(** * The Python facade of Hail: [HailContext] and [KeyTable]

    A shallow embedding of [python/hail/context.py] and
    [python/hail/keytable.py].  Both classes are thin clients of a JVM
    engine reached through py4j: a method builds its arguments, invokes a
    method of a remote object by name, and wraps what comes back.

    The embedding keeps what the Python code has:
    - dynamically typed values ([pyval]), with the two string types of
      Python 2, the language of the two files ([str] and [unicode]);
    - mutable objects living in a store ([heap]), addressed by reference,
      because [KeyTable] fills cache fields of [self] on first use;
    - exceptions ([pyexn]), raised by the remote side or locally;
    - the remote engine as an unknown, stateful party ([Gateway]); every
      invocation that crosses the bridge is appended to a [trace]. *)

From Stdlib Require Import ZArith NArith String Ascii List Bool Lia.
From stdpp Require Import base option list relations strings.

Local Open Scope string_scope.
Local Open Scope list_scope.

(** ** Python values *)

#[warnings="-register-all"]
Inductive pyval : Type :=
| PNone
| PBool (b : bool)
| PInt (n : Z)
| PFloat (bits : Z)                       (* a double, by its IEEE-754 bit pattern *)
| PStr (s : string)                       (* a str of Python 2: bytes *)
| PUnicode (units : list N)               (* a unicode, by its code units *)
| PList (items : list pyval)
| PDict (entries : list (pyval * pyval))
| PInstance (cls : string) (args : list pyval)
    (* an instance of a class of another module (TextTableConfig, UniformDist,
       TStruct, ...), as built by calling [cls] on [args] *)
| PJava (fqn : string)
    (* a py4j proxy: JavaObject, JavaClass or JavaPackage, named by its
       target id or fully qualified name *)
| PRef (l : nat).
    (* a reference to an object of the local store *)

(** Exceptions that can leave a method of the two classes. *)
Inductive pyexn : Type :=
| Py4JJavaError (java_exception : pyval)   (* raised by py4j when the JVM throws *)
| FatalError (cause : pyval)               (* hail.java.FatalError *)
| AssertionError
| AttributeError (name : string)
| TypeError
| UnicodeDecodeError.

Inductive result (A : Type) : Type :=
| Ok (a : A)
| Raise (e : pyexn).
Arguments Ok {A} a.
Arguments Raise {A} e.

(** [bool(v)] *)
Definition py_truthy (v : pyval) : bool :=
  match v with
  | PNone => false
  | PBool b => b
  | PInt n => negb (n =? 0)%Z
  | PFloat bits => negb ((bits =? 0)%Z || (bits =? 2 ^ 63)%Z)
  | PStr s => negb (String.eqb s "")
  | PUnicode units => match units with [] => false | _ => true end
  | PList items => match items with [] => false | _ => true end
  | PDict entries => match entries with [] => false | _ => true end
  | PInstance _ _ | PJava _ | PRef _ => true
  end.

(** [v is None] *)
Definition is_None (v : pyval) : bool :=
  match v with PNone => true | _ => false end.

(** [isinstance(v, str)], [isinstance(v, unicode)], [isinstance(v, TStruct)].
    In Python 2 a unicode is no str. *)
Definition isinstance_str (v : pyval) : bool :=
  match v with PStr _ => true | _ => false end.
Definition isinstance_unicode (v : pyval) : bool :=
  match v with PUnicode _ => true | _ => false end.
Definition isinstance_basestring (v : pyval) : bool :=
  isinstance_str v || isinstance_unicode v.
Definition isinstance_TStruct (v : pyval) : bool :=
  match v with PInstance cls _ => String.eqb cls "TStruct" | _ => false end.

(** *** str and unicode

    Where a str meets a unicode, Python 2 decodes the str with the default
    codec, ASCII; a byte above 127 makes that fail. *)

Definition units_of (s : string) : list N := map N_of_ascii (list_ascii_of_string s).

Definition is_ascii (s : string) : bool :=
  forallb (fun n => (n <? 128)%N) (units_of s).

Definition decode_ascii (s : string) : result (list N) :=
  if is_ascii s then Ok (units_of s) else Raise UnicodeDecodeError.

Fixpoint units_eqb (x y : list N) : bool :=
  match x, y with
  | [], [] => true
  | a :: x', b :: y' => (a =? b)%N && units_eqb x' y'
  | _, _ => false
  end.

Fixpoint units_prefix (p s : list N) : bool :=
  match p, s with
  | [], _ => true
  | a :: p', b :: s' => (a =? b)%N && units_prefix p' s'
  | _ :: _, [] => false
  end.
Fixpoint units_infix (p s : list N) : bool :=
  units_prefix p s || match s with [] => false | _ :: s' => units_infix p s' end.

(** *** Doubles, by their bits

    A double that is finite is [float_mantissa * 2 ^ float_exponent]. *)

Definition float_exp_field (bits : Z) : Z := Z.land (Z.shiftr bits 52) 2047.
Definition float_fraction (bits : Z) : Z := Z.land bits (2 ^ 52 - 1).
Definition float_is_nan (bits : Z) : bool :=
  (float_exp_field bits =? 2047)%Z && negb (float_fraction bits =? 0)%Z.
Definition float_is_inf (bits : Z) : bool :=
  (float_exp_field bits =? 2047)%Z && (float_fraction bits =? 0)%Z.
Definition float_mantissa (bits : Z) : Z :=
  let m := if (float_exp_field bits =? 0)%Z then float_fraction bits
           else (float_fraction bits + 2 ^ 52)%Z in
  if Z.testbit bits 63 then (- m)%Z else m.
Definition float_exponent (bits : Z) : Z :=
  ((if (float_exp_field bits =? 0)%Z then 1 else float_exp_field bits) - 1075)%Z.

(** [x == y] for two floats: no NaN equals anything, the two zeros are
    equal, and otherwise the bits decide. *)
Definition float_eq (x y : Z) : bool :=
  negb (float_is_nan x) && negb (float_is_nan y) &&
  ((x =? y)%Z || ((float_mantissa x =? 0)%Z && (float_mantissa y =? 0)%Z)).

(** [x == n] for a float and an int: Python compares the exact values. *)
Definition float_eq_int (x n : Z) : bool :=
  negb (float_is_nan x) && negb (float_is_inf x) &&
  (let m := float_mantissa x in
   let e := float_exponent x in
   if (0 <=? e)%Z then (n =? m * 2 ^ e)%Z
   else ((m mod 2 ^ (- e) =? 0)%Z && (n =? m / 2 ^ (- e))%Z)).

Definition int_of_bool (b : bool) : Z := if b then 1%Z else 0%Z.

(** [a == b].  A bool is an int, numbers are compared by value, a str
    equals a unicode when it is ASCII and has the same characters, lists are
    compared item by item and dicts entry by entry, whatever the order.
    Instances and proxies are compared by what they were built from: the
    model gives them no identity. *)
Fixpoint py_eq (a b : pyval) {struct a} : bool :=
  let fix eq_items (l1 l2 : list pyval) {struct l1} : bool :=
    match l1, l2 with
    | [], [] => true
    | x :: l1', y :: l2' => py_eq x y && eq_items l1' l2'
    | _, _ => false
    end in
  let fix entries_in (l1 l2 : list (pyval * pyval)) {struct l1} : bool :=
    match l1 with
    | [] => true
    | (k1, v1) :: l1' =>
        existsb (fun e => py_eq k1 (fst e) && py_eq v1 (snd e)) l2 && entries_in l1' l2
    end in
  match a, b with
  | PNone, PNone => true
  | PBool x, PBool y => Bool.eqb x y
  | PInt x, PInt y => (x =? y)%Z
  | PBool x, PInt y | PInt y, PBool x => (int_of_bool x =? y)%Z
  | PFloat x, PFloat y => float_eq x y
  | PFloat x, PInt y | PInt y, PFloat x => float_eq_int x y
  | PFloat x, PBool y | PBool y, PFloat x => float_eq_int x (int_of_bool y)
  | PStr x, PStr y => String.eqb x y
  | PUnicode x, PUnicode y => units_eqb x y
  | PStr x, PUnicode y | PUnicode y, PStr x => is_ascii x && units_eqb (units_of x) y
  | PList x, PList y => eq_items x y
  | PDict x, PDict y => Nat.eqb (length x) (length y) && entries_in x y
  | PInstance c x, PInstance d y => String.eqb c d && eq_items x y
  | PJava x, PJava y => String.eqb x y
  | PRef x, PRef y => Nat.eqb x y
  | _, _ => false
  end.

(** [sub in s] for two strs *)
Fixpoint is_prefix (p s : string) : bool :=
  match p, s with
  | EmptyString, _ => true
  | String a p', String b s' => Ascii.eqb a b && is_prefix p' s'
  | String _ _, EmptyString => false
  end.
Fixpoint is_substring (p s : string) : bool :=
  is_prefix p s || match s with EmptyString => false | String _ s' => is_substring p s' end.

(** a value that can be the key of a dict *)
Definition hashable (v : pyval) : bool :=
  match v with PList _ | PDict _ => false | _ => true end.

(** [k in c]: membership for the containers a caller can pass.  In a list
    Python compares with [==]; in a dict it looks the key up; in a string it
    looks for a substring, after decoding a str that meets a unicode. *)
Definition py_in (k c : pyval) : result bool :=
  match c with
  | PList items => Ok (existsb (fun x => py_eq x k) items)
  | PDict entries =>
      if hashable k then Ok (existsb (fun e => py_eq (fst e) k) entries)
      else Raise TypeError
  | PStr s =>
      match k with
      | PStr p => Ok (is_substring p s)
      | PUnicode u =>
          match decode_ascii s with
          | Ok su => Ok (units_infix u su)
          | Raise e => Raise e
          end
      | _ => Raise TypeError
      end
  | PUnicode su =>
      match k with
      | PUnicode u => Ok (units_infix u su)
      | PStr p =>
          match decode_ascii p with
          | Ok u => Ok (units_infix u su)
          | Raise e => Raise e
          end
      | _ => Raise TypeError
      end
  | _ => Raise TypeError
  end.

(** [list(v)] *)
Definition py_list (v : pyval) : result pyval :=
  match v with
  | PList items => Ok (PList items)
  | PDict entries => Ok (PList (map fst entries))
  | PStr s => Ok (PList (map (fun a => PStr (String a EmptyString)) (list_ascii_of_string s)))
  | PUnicode units => Ok (PList (map (fun n => PUnicode [n]) units))
  | _ => Raise TypeError
  end.

(** [sep.join(v)] as long as every item of the list [v] is a str: the first
    item that is none ends this pass. *)
Fixpoint join_strings (sep : string) (items : list pyval) : result string :=
  match items with
  | [] => Ok ""
  | [PStr s] => Ok s
  | PStr s :: rest =>
      match join_strings sep rest with
      | Ok t => Ok (String.append s (String.append sep t))
      | Raise e => Raise e
      end
  | _ :: _ => Raise TypeError
  end.

(** the first item of a list that is no str *)
Definition first_non_str (items : list pyval) : option pyval :=
  List.find (fun i => negb (isinstance_str i)) items.

(** the items of a unicode join, each as a unicode, from the first on *)
Fixpoint units_of_items (items : list pyval) : result (list (list N)) :=
  match items with
  | [] => Ok []
  | i :: rest =>
      match (match i with
             | PUnicode u => Ok u
             | PStr s => decode_ascii s
             | _ => Raise TypeError
             end) with
      | Raise e => Raise e
      | Ok u =>
          match units_of_items rest with
          | Raise e => Raise e
          | Ok us => Ok (u :: us)
          end
      end
  end.

Fixpoint intercalate (sep : list N) (us : list (list N)) : list N :=
  match us with
  | [] => []
  | [u] => u
  | u :: rest => u ++ sep ++ intercalate sep rest
  end.

(** [sep.join(v)] for a str [sep] and a list [v].  A list of strs gives a
    str.  When the first item that is no str is a unicode, Python 2 starts
    over with a unicode join, which decodes the separator and every str; when
    it is anything else, the join raises [TypeError]. *)
Definition str_join (sep : string) (items : list pyval) : result pyval :=
  match first_non_str items with
  | None =>
      match join_strings sep items with
      | Ok s => Ok (PStr s)
      | Raise e => Raise e
      end
  | Some (PUnicode _) =>
      match decode_ascii sep with
      | Raise e => Raise e
      | Ok usep =>
          match units_of_items items with
          | Raise e => Raise e
          | Ok us => Ok (PUnicode (intercalate usep us))
          end
      end
  | Some _ => Raise TypeError
  end.

(** a value that has methods implemented on the other side of the bridge *)
Definition callable (t : pyval) : bool :=
  match t with
  | PJava _ | PInstance _ _ | PRef _ => true
  | _ => false
  end.

(** ** The bridge *)

(** One invocation through py4j: the method [name] of the remote object
    [target], with the arguments as sent. *)
Record rcall : Type := RCall { call_target : pyval; call_name : string; call_args : list pyval }.

Inductive reply : Type :=
| Returned (v : pyval)
| Thrown (java_exception : pyval).

(** What the two files import and do not define: the JVM behind the bridge,
    and the helpers of [hail.java], [hail.type], [hail.utils] and
    [hail.stats] that build proxies for arguments. *)
Class Gateway : Type := {
  jvm : Type;
  remote : rcall -> jvm -> reply * jvm;
  joption : pyval -> pyval;
  jindexed_seq_args : pyval -> pyval;
  jarray : pyval -> pyval -> pyval;
  scala_package_object : pyval -> pyval;
  Type_from_java : pyval -> pyval;      (* Type._from_java *)
  to_java : pyval -> pyval;             (* TextTableConfig._to_java *)
  jrep : pyval -> pyval                 (* UniformDist._jrep and the like *)
}.

(** ** Objects of the local store *)

Record HailContextObj : Type := {
  _gateway : pyval;
  _jvm : pyval;
  _hail : pyval;
  _jhc : pyval;
  _jsc : pyval;
  sc : pyval;
  _jsql_context : pyval;
  _sql_context : pyval
}.

Record KeyTableObj : Type := {
  hc : pyval;
  _jkt : pyval;
  _schema : pyval;
  _num_columns : pyval;
  _key_names : pyval;
  _column_names : pyval
}.

Inductive obj : Type :=
| OHailContext (o : HailContextObj)
| OKeyTable (o : KeyTableObj)
| OVariantDataset (vds_hc vds_jvds : pyval)     (* hail.dataset.VariantDataset *)
| ODataFrame (jdf sql_ctx : pyval).             (* pyspark.sql.DataFrame *)

Section Runtime.
Context `{G : Gateway}.

(** The [trace] lists what crossed the bridge so far: each invocation with
    the answer it got. *)
Record world : Type := World {
  engine : jvm;
  trace : list (rcall * reply);
  heap : list obj
}.

(** Computations: they read and change the world and end with a value or an
    exception; what was changed before a raise stays changed. *)
Definition M (A : Type) : Type := world -> result A * world.

Definition ret {A} (a : A) : M A := fun w => (Ok a, w).
Definition raise {A} (e : pyexn) : M A := fun w => (Raise e, w).
Definition bind {A B} (m : M A) (k : A -> M B) : M B :=
  fun w => match m w with
           | (Ok a, w') => k a w'
           | (Raise e, w') => (Raise e, w')
           end.
Definition lift {A} (r : result A) : M A := fun w => (r, w).

(** [t.m(a...)] where [t] is a proxy of py4j or an object of pyspark: the
    invocation is recorded and answered by the other side.  [None] and plain
    data have no such method. *)
Definition jcall (t : pyval) (m : string) (a : list pyval) : M pyval :=
  fun w =>
    if callable t then
      let c := RCall t m a in
      let (r, e') := remote c (engine w) in
      let w' := World e' (trace w ++ [(c, r)]) (heap w) in
      match r with
      | Returned v => (Ok v, w')
      | Thrown x => (Raise (Py4JJavaError x), w')
      end
    else (Raise (AttributeError m), w).

(** [p.a] on a JavaPackage: the longer qualified name. *)
Definition jattr (p : pyval) (a : string) : M pyval :=
  match p with
  | PJava fqn => ret (PJava (String.append fqn (String.append "." a)))
  | _ => raise (AttributeError a)
  end.

(** Modelled from the spec: the decorator [handle_py4j] of [hail.java],
    which is imported and not defined in the two files.  The spec asks to
    "propagate the remote call's error verbatim and translate it into a
    local exception": the error py4j raised for a JVM exception leaves the
    decorated method as a [FatalError] with the same payload; everything
    else passes through. *)
Definition handle_py4j {A} (f : M A) : M A :=
  fun w =>
    match f w with
    | (Raise (Py4JJavaError x), w') => (Raise (FatalError x), w')
    | r => r
    end.

(** The store: a new object gets the next free address. *)
Definition alloc (o : obj) : M pyval :=
  fun w => (Ok (PRef (length (heap w))),
            World (engine w) (trace w) (heap w ++ [o])).

(** The object behind [r], for an access to its attribute [attr]: a value
    that is no object of the store has no such attribute. *)
Definition load (r : pyval) (attr : string) : M obj :=
  fun w =>
    match r with
    | PRef l => match heap w !! l with
                | Some o => (Ok o, w)
                | None => (Raise (AttributeError attr), w)
                end
    | _ => (Raise (AttributeError attr), w)
    end.

Definition store (r : pyval) (attr : string) (o : obj) : M unit :=
  fun w =>
    match r with
    | PRef l => (Ok tt, World (engine w) (trace w) (<[l:=o]> (heap w)))
    | _ => (Raise (AttributeError attr), w)
    end.

(** Modelled from the spec: the constructors of [VariantDataset]
    ([hail.dataset]) and of pyspark's [DataFrame], neither defined in the two
    files; "wrapping returned handles in local facade objects", they keep
    their two arguments. *)
Definition VariantDataset (hc jvds : pyval) : M pyval := alloc (OVariantDataset hc jvds).
Definition DataFrame (jdf sql_ctx : pyval) : M pyval := alloc (ODataFrame jdf sql_ctx).

(** [df._jdf] *)
Definition DataFrame_jdf (df : pyval) : M pyval :=
  bind (load df "_jdf") (fun o =>
    match o with
    | ODataFrame jdf _ => ret jdf
    | _ => raise (AttributeError "_jdf")
    end).

(** [[k for k in ks if k in c]] *)
Fixpoint keep_members (ks : list pyval) (c : pyval) : result (list pyval) :=
  match ks with
  | [] => Ok []
  | k :: ks' =>
      match py_in k c with
      | Raise e => Raise e
      | Ok b =>
          match keep_members ks' c with
          | Raise e => Raise e
          | Ok r => Ok (if b then k :: r else r)
          end
      end
  end.

(** the items a [for] loop over [v] visits *)
Definition py_iter (v : pyval) : result (list pyval) :=
  match py_list v with
  | Ok (PList items) => Ok items
  | Ok _ => Raise TypeError
  | Raise e => Raise e
  end.

(** [sep.join(v)] when [v] is a list, [v] itself otherwise *)
Definition join_if_list (sep : string) (v : pyval) : result pyval :=
  match v with
  | PList items => str_join sep items
  | _ => Ok v
  end.

End Runtime.

Declare Scope py_scope.
Delimit Scope py_scope with py.
Notation "'let!' x ':=' m 'in' k" := (bind m (fun x => k))
  (at level 10, x name, m at level 200, k at level 200) : py_scope.
Local Open Scope py_scope.

(** ** class HailContext: the fields (methods follow class KeyTable, which
    they construct) *)

Module HailContextFields.
Section Fields.
Context `{G : Gateway}.

(** [self.f] for a field [f] of a HailContext *)
Definition get (self : pyval) (attr : string) (f : HailContextObj -> pyval) : M pyval :=
  let! o := load self attr in
  match o with
  | OHailContext h => ret (f h)
  | _ => raise (AttributeError attr)
  end.

Definition set_sc (v : pyval) (h : HailContextObj) : HailContextObj :=
  {| _gateway := _gateway h; _jvm := _jvm h; _hail := _hail h; _jhc := _jhc h;
     _jsc := _jsc h; sc := v; _jsql_context := _jsql_context h;
     _sql_context := _sql_context h |}.

(** [self.f = v] *)
Definition set (self : pyval) (attr : string)
    (upd : HailContextObj -> HailContextObj) : M unit :=
  let! o := load self attr in
  match o with
  | OHailContext h => store self attr (OHailContext (upd h))
  | _ => raise (AttributeError attr)
  end.

End Fields.
End HailContextFields.

(** ** class KeyTable *)

Module KeyTable.
Section Methods.
Context `{G : Gateway}.

(** [self.f] for a field [f] of a KeyTable *)
Definition get (self : pyval) (attr : string) (f : KeyTableObj -> pyval) : M pyval :=
  let! o := load self attr in
  match o with
  | OKeyTable k => ret (f k)
  | _ => raise (AttributeError attr)
  end.

(** [self.f = v] for a field [f] of a KeyTable *)
Definition set (self : pyval) (attr : string)
    (upd : KeyTableObj -> KeyTableObj) : M unit :=
  let! o := load self attr in
  match o with
  | OKeyTable k => store self attr (OKeyTable (upd k))
  | _ => raise (AttributeError attr)
  end.

Definition set_schema (v : pyval) (k : KeyTableObj) : KeyTableObj :=
  {| hc := hc k; _jkt := _jkt k; _schema := v; _num_columns := _num_columns k;
     _key_names := _key_names k; _column_names := _column_names k |}.
Definition set_num_columns (v : pyval) (k : KeyTableObj) : KeyTableObj :=
  {| hc := hc k; _jkt := _jkt k; _schema := _schema k; _num_columns := v;
     _key_names := _key_names k; _column_names := _column_names k |}.
Definition set_key_names (v : pyval) (k : KeyTableObj) : KeyTableObj :=
  {| hc := hc k; _jkt := _jkt k; _schema := _schema k; _num_columns := _num_columns k;
     _key_names := v; _column_names := _column_names k |}.
Definition set_column_names (v : pyval) (k : KeyTableObj) : KeyTableObj :=
  {| hc := hc k; _jkt := _jkt k; _schema := _schema k; _num_columns := _num_columns k;
     _key_names := _key_names k; _column_names := v |}.

(** [KeyTable(hc, jkt)] *)
Definition __init__ (hc jkt : pyval) : M pyval :=
  alloc (OKeyTable {| hc := hc; _jkt := jkt; _schema := PNone; _num_columns := PNone;
                      _key_names := PNone; _column_names := PNone |}).

(** *** The four properties (not decorated) *)

Definition num_columns (self : pyval) : M pyval :=
  let! cached := get self "_num_columns" _num_columns in
  let! _ := (if is_None cached then
               let! jkt := get self "_jkt" _jkt in
               let! v := jcall jkt "nFields" [] in
               set self "_num_columns" (set_num_columns v)
             else ret tt) in
  get self "_num_columns" _num_columns.

Definition schema (self : pyval) : M pyval :=
  let! cached := get self "_schema" _schema in
  let! _ := (if is_None cached then
               let! jkt := get self "_jkt" _jkt in
               let! s := jcall jkt "signature" [] in
               let! _ := set self "_schema" (set_schema (Type_from_java s)) in
               let! t := get self "_schema" _schema in
               if isinstance_TStruct t then ret tt else raise AssertionError
             else ret tt) in
  get self "_schema" _schema.

Definition key_names (self : pyval) : M pyval :=
  let! cached := get self "_key_names" _key_names in
  let! _ := (if is_None cached then
               let! jkt := get self "_jkt" _jkt in
               let! a := jcall jkt "keyNames" [] in
               let! l := lift (py_list a) in
               set self "_key_names" (set_key_names l)
             else ret tt) in
  get self "_key_names" _key_names.

Definition column_names (self : pyval) : M pyval :=
  let! cached := get self "_column_names" _column_names in
  let! _ := (if is_None cached then
               let! jkt := get self "_jkt" _jkt in
               let! a := jcall jkt "fieldNames" [] in
               let! l := lift (py_list a) in
               set self "_column_names" (set_column_names l)
             else ret tt) in
  get self "_column_names" _column_names.

(** *** Methods *)

Definition __repr__ (self : pyval) : M pyval :=
  let! jkt := get self "_jkt" _jkt in
  jcall jkt "toString" [].

Definition count_rows (self : pyval) : M pyval :=
  handle_py4j (
    let! jkt := get self "_jkt" _jkt in
    jcall jkt "nRows" []).

Definition same (self other : pyval) : M pyval :=
  handle_py4j (
    let! jkt := get self "_jkt" _jkt in
    let! ojkt := get other "_jkt" _jkt in
    jcall jkt "same" [ojkt]).

(** default: [types_file=None] *)
Definition export (self output types_file : pyval) : M pyval :=
  handle_py4j (
    let! jkt := get self "_jkt" _jkt in
    let! h := get self "hc" hc in
    let! jsc := HailContextFields.get h "_jsc" _jsc in
    let! _ := jcall jkt "export" [jsc; output; types_file] in
    ret PNone).

(** default: [keep=True] *)
Definition filter (self condition keep : pyval) : M pyval :=
  handle_py4j (
    let! h := get self "hc" hc in
    let! jkt := get self "_jkt" _jkt in
    let! r := jcall jkt "filter" [condition; keep] in
    __init__ h r).

Definition annotate (self expr : pyval) : M pyval :=
  handle_py4j (
    let! expr := lift (join_if_list "," expr) in
    let! h := get self "hc" hc in
    let! jkt := get self "_jkt" _jkt in
    let! r := jcall jkt "annotate" [expr] in
    __init__ h r).

(** default: [how='inner'].  This method carries no decorator. *)
Definition join (self right how : pyval) : M pyval :=
  let! h := get self "hc" hc in
  let! jkt := get self "_jkt" _jkt in
  let! rjkt := get right "_jkt" _jkt in
  let! r := jcall jkt "join" [rjkt; how] in
  __init__ h r.

Definition aggregate_by_key (self key_expr agg_expr : pyval) : M pyval :=
  handle_py4j (
    let! key_expr := lift (join_if_list "," key_expr) in
    let! agg_expr := lift (join_if_list ", " agg_expr) in
    let! h := get self "hc" hc in
    let! jkt := get self "_jkt" _jkt in
    let! r := jcall jkt "aggregate" [key_expr; agg_expr] in
    __init__ h r).

Definition forall_ (self code : pyval) : M pyval :=
  handle_py4j (
    let! jkt := get self "_jkt" _jkt in
    jcall jkt "forall" [code]).

Definition exists_ (self code : pyval) : M pyval :=
  handle_py4j (
    let! jkt := get self "_jkt" _jkt in
    jcall jkt "exists" [code]).

Definition rename (self column_names : pyval) : M pyval :=
  handle_py4j (
    let! h := get self "hc" hc in
    let! jkt := get self "_jkt" _jkt in
    let! r := jcall jkt "rename" [column_names] in
    __init__ h r).

Definition expand_types (self : pyval) : M pyval :=
  handle_py4j (
    let! h := get self "hc" hc in
    let! jkt := get self "_jkt" _jkt in
    let! r := jcall jkt "expandTypes" [] in
    __init__ h r).

Definition key_by (self key_names : pyval) : M pyval :=
  handle_py4j (
    let! h := get self "hc" hc in
    let! jkt := get self "_jkt" _jkt in
    let! cols := column_names self in
    let! r := jcall jkt "select" [cols; key_names] in
    __init__ h r).

Definition flatten (self : pyval) : M pyval :=
  handle_py4j (
    let! h := get self "hc" hc in
    let! jkt := get self "_jkt" _jkt in
    let! r := jcall jkt "flatten" [] in
    __init__ h r).

Definition select (self column_names : pyval) : M pyval :=
  handle_py4j (
    let! ks := key_names self in
    let! ks := lift (py_iter ks) in
    let! new_key_names := lift (keep_members ks column_names) in
    let! h := get self "hc" hc in
    let! jkt := get self "_jkt" _jkt in
    let! r := jcall jkt "select" [column_names; PList new_key_names] in
    __init__ h r).

(** defaults: [expand=True, flatten=True] *)
Definition to_dataframe (self expand flatten : pyval) : M pyval :=
  handle_py4j (
    let! jkt := get self "_jkt" _jkt in
    let! jkt := (if py_truthy expand then jcall jkt "expandTypes" [] else ret jkt) in
    let! jkt := (if py_truthy flatten then jcall jkt "flatten" [] else ret jkt) in
    let! h := get self "hc" hc in
    let! jsql := HailContextFields.get h "_jsql_context" _jsql_context in
    let! jdf := jcall jkt "toDF" [jsql] in
    let! h := get self "hc" hc in
    let! sql := HailContextFields.get h "_sql_context" _sql_context in
    DataFrame jdf sql).

(** defaults: [expand=True, flatten=True] *)
Definition to_pandas (self expand flatten : pyval) : M pyval :=
  handle_py4j (
    let! df := to_dataframe self expand flatten in
    jcall df "toPandas" []).

(** default: [mode='append'] *)
Definition export_mongodb (self mode : pyval) : M pyval :=
  handle_py4j (
    let! h := get self "hc" hc in
    let! hail := HailContextFields.get h "_hail" _hail in
    let! driver := jattr hail "driver" in
    let pkg := scala_package_object driver in
    let! h := get self "hc" hc in
    let! jsql := HailContextFields.get h "_jsql_context" _jsql_context in
    let! jkt := get self "_jkt" _jkt in
    let! _ := jcall pkg "exportMongoDB" [jsql; jkt; mode] in
    ret PNone).

Definition explode (self column_names : pyval) : M pyval :=
  handle_py4j (
    let column_names :=
      if isinstance_str column_names then PList [column_names] else column_names in
    let! h := get self "hc" hc in
    let! jkt := get self "_jkt" _jkt in
    let! r := jcall jkt "explode" [column_names] in
    __init__ h r).

Definition _typecheck (self : pyval) : M pyval :=
  handle_py4j (
    let! jkt := get self "_jkt" _jkt in
    let! _ := jcall jkt "typeCheck" [] in
    ret PNone).

End Methods.
End KeyTable.

(** ** class HailContext

    [__init__] starts the JVM session through pyspark's class-level state and
    is not embedded: a HailContext is an object of the store with its fields
    already set. *)

Module HailContext.
Section Methods.
Context `{G : Gateway}.

Definition get := HailContextFields.get.

(** [TextTableConfig()] *)
Definition TextTableConfig : pyval := PInstance "TextTableConfig" [].

(** [config._to_java()] and [af_dist._jrep()]: methods of instances *)
Definition call_to_java (config : pyval) : M pyval :=
  match config with
  | PInstance _ _ => ret (to_java config)
  | _ => raise (AttributeError "_to_java")
  end.
Definition call_jrep (dist : pyval) : M pyval :=
  match dist with
  | PInstance _ _ => ret (jrep dist)
  | _ => raise (AttributeError "_jrep")
  end.

(** default: [max_count=100] *)
Definition grep (self regex path max_count : pyval) : M pyval :=
  handle_py4j (
    let! jhc := get self "_jhc" _jhc in
    let! _ := jcall jhc "grep" [regex; jindexed_seq_args path; max_count] in
    ret PNone).

(** defaults: [code=None, npartitions=None, config=TextTableConfig()] *)
Definition import_annotations_table
    (self path variant_expr code npartitions config : pyval) : M pyval :=
  handle_py4j (
    let! jhc := get self "_jhc" _jhc in
    let! jconfig := call_to_java config in
    let! jvds := jcall jhc "importAnnotationsTables"
                   [jindexed_seq_args path; variant_expr; joption code;
                    joption npartitions; jconfig] in
    VariantDataset self jvds).

(** defaults: [tolerance=0.2, sample_file=None, npartitions=None, compress=True] *)
Definition import_bgen
    (self path tolerance sample_file npartitions compress : pyval) : M pyval :=
  handle_py4j (
    let! jhc := get self "_jhc" _jhc in
    let! jvds := jcall jhc "importBgens"
                   [jindexed_seq_args path; joption sample_file; tolerance;
                    joption npartitions; PBool true] in
    VariantDataset self jvds).

(** defaults: [sample_file=None, tolerance=0.02, npartitions=None,
    chromosome=None, compress=True] *)
Definition import_gen
    (self path sample_file tolerance npartitions chromosome compress : pyval) : M pyval :=
  handle_py4j (
    let! jhc := get self "_jhc" _jhc in
    let! jvds := jcall jhc "importGens"
                   [jindexed_seq_args path; sample_file; joption chromosome;
                    joption npartitions; tolerance; compress] in
    VariantDataset self jvds).

(** defaults: [npartitions=None, config=TextTableConfig()] *)
Definition import_keytable (self path key_names npartitions config : pyval) : M pyval :=
  handle_py4j (
    let config := if py_truthy config then config else TextTableConfig in
    let! jhc := get self "_jhc" _jhc in
    let! jconfig := call_to_java config in
    let! jkt := jcall jhc "importKeyTable"
                  [jindexed_seq_args path; jindexed_seq_args key_names;
                   joption npartitions; jconfig] in
    KeyTable.__init__ self jkt).

(** defaults: [npartitions=None, delimiter='\\\\s+', missing='NA',
    quantpheno=False, compress=True] *)
Definition import_plink
    (self bed bim fam npartitions delimiter missing quantpheno compress : pyval)
    : M pyval :=
  handle_py4j (
    let! jhc := get self "_jhc" _jhc in
    let! jvds := jcall jhc "importPlink"
                   [bed; bim; fam; joption npartitions; delimiter; missing;
                    quantpheno; compress] in
    VariantDataset self jvds).

(** defaults: [sites_only=False, samples_only=False] *)
Definition read (self path sites_only samples_only : pyval) : M pyval :=
  handle_py4j (
    let! jhc := get self "_jhc" _jhc in
    let! jvds := jcall jhc "readAll" [jindexed_seq_args path; sites_only; samples_only] in
    VariantDataset self jvds).

Definition write_partitioning (self path : pyval) : M pyval :=
  handle_py4j (
    let! jhc := get self "_jhc" _jhc in
    let! _ := jcall jhc "writePartitioning" [path] in
    ret PNone).

(** defaults: [force=False, force_bgz=False, header_file=None,
    npartitions=None, sites_only=False, store_gq=False, pp_as_pl=False,
    skip_bad_ad=False, compress=False] *)
Definition import_vcf
    (self path force force_bgz header_file npartitions sites_only store_gq
       pp_as_pl skip_bad_ad compress : pyval) : M pyval :=
  handle_py4j (
    let! jhc := get self "_jhc" _jhc in
    let! jvds := jcall jhc "importVCFs"
                   [jindexed_seq_args path; force; force_bgz; joption header_file;
                    joption npartitions; sites_only; store_gq; pp_as_pl;
                    skip_bad_ad; compress] in
    VariantDataset self jvds).

Definition index_bgen (self path : pyval) : M pyval :=
  handle_py4j (
    let! jhc := get self "_jhc" _jhc in
    let! _ := jcall jhc "indexBgen" [jindexed_seq_args path] in
    ret PNone).

(** defaults: [npartitions=None, pop_dist=None, fst=None,
    af_dist=UniformDist(0.1, 0.9), seed=0] *)
Definition balding_nichols_model
    (self populations samples variants npartitions pop_dist fst af_dist seed : pyval)
    : M pyval :=
  handle_py4j (
    let! jvm_pop_dist_opt :=
      (if is_None pop_dist then ret (joption pop_dist)
       else let! jvm := get self "_jvm" _jvm in
            let! dbl := jattr jvm "double" in
            ret (joption (jarray dbl pop_dist))) in
    let! jvm_fst_opt :=
      (if is_None fst then ret (joption fst)
       else let! jvm := get self "_jvm" _jvm in
            let! dbl := jattr jvm "double" in
            ret (joption (jarray dbl fst))) in
    let! jhc := get self "_jhc" _jhc in
    let! jdist := call_jrep af_dist in
    let! jvds := jcall jhc "baldingNicholsModel"
                   [populations; samples; variants; joption npartitions;
                    jvm_pop_dist_opt; jvm_fst_opt; jdist; seed] in
    VariantDataset self jvds).

(** default: [keys=[]] *)
Definition dataframe_to_keytable (self df keys : pyval) : M pyval :=
  handle_py4j (
    let! jvm := get self "_jvm" _jvm in
    let! p := jattr jvm "java" in
    let! p := jattr p "lang" in
    let! str := jattr p "String" in
    let jkeys := jarray str keys in
    let! hail := get self "_hail" _hail in
    let! p := jattr hail "keytable" in
    let! cls := jattr p "KeyTable" in
    let! jhc := get self "_jhc" _jhc in
    let! jdf := DataFrame_jdf df in
    let! jkt := jcall cls "fromDF" [jhc; jdf; jkeys] in
    KeyTable.__init__ self jkt).

(** This method carries no decorator. *)
Definition stop (self : pyval) : M pyval :=
  let! sc := get self "sc" sc in
  let! _ := jcall sc "stop" [] in
  let! _ := HailContextFields.set self "sc" (HailContextFields.set_sc PNone) in
  ret PNone.

End Methods.
End HailContext.

(** ** Invocations

    One constructor per property and method of the two classes, with the
    arguments of the invocation (a default is passed explicitly). *)

Inductive call : Type :=
| KT_num_columns (self : pyval)
| KT_schema (self : pyval)
| KT_key_names (self : pyval)
| KT_column_names (self : pyval)
| KT_count_rows (self : pyval)
| KT_same (self other : pyval)
| KT_export (self output types_file : pyval)
| KT_filter (self condition keep : pyval)
| KT_annotate (self expr : pyval)
| KT_join (self right how : pyval)
| KT_aggregate_by_key (self key_expr agg_expr : pyval)
| KT_forall (self code : pyval)
| KT_exists (self code : pyval)
| KT_rename (self column_names : pyval)
| KT_expand_types (self : pyval)
| KT_key_by (self key_names : pyval)
| KT_flatten (self : pyval)
| KT_select (self column_names : pyval)
| KT_to_dataframe (self expand flatten : pyval)
| KT_to_pandas (self expand flatten : pyval)
| KT_export_mongodb (self mode : pyval)
| KT_explode (self column_names : pyval)
| KT_repr (self : pyval)
| KT_typecheck (self : pyval)
| HC_grep (self regex path max_count : pyval)
| HC_import_annotations_table (self path variant_expr code npartitions config : pyval)
| HC_import_bgen (self path tolerance sample_file npartitions compress : pyval)
| HC_import_gen (self path sample_file tolerance npartitions chromosome compress : pyval)
| HC_import_keytable (self path key_names npartitions config : pyval)
| HC_import_plink (self bed bim fam npartitions delimiter missing quantpheno compress : pyval)
| HC_read (self path sites_only samples_only : pyval)
| HC_write_partitioning (self path : pyval)
| HC_import_vcf (self path force force_bgz header_file npartitions sites_only store_gq
                   pp_as_pl skip_bad_ad compress : pyval)
| HC_index_bgen (self path : pyval)
| HC_balding_nichols_model (self populations samples variants npartitions pop_dist fst
                              af_dist seed : pyval)
| HC_dataframe_to_keytable (self df keys : pyval)
| HC_stop (self : pyval).

Section Invoke.
Context `{G : Gateway}.

Definition invoke (c : call) : M pyval :=
  match c with
  | KT_num_columns self => KeyTable.num_columns self
  | KT_schema self => KeyTable.schema self
  | KT_key_names self => KeyTable.key_names self
  | KT_column_names self => KeyTable.column_names self
  | KT_count_rows self => KeyTable.count_rows self
  | KT_same self other => KeyTable.same self other
  | KT_export self output types_file => KeyTable.export self output types_file
  | KT_filter self condition keep => KeyTable.filter self condition keep
  | KT_annotate self expr => KeyTable.annotate self expr
  | KT_join self rhs how => KeyTable.join self rhs how
  | KT_aggregate_by_key self key_expr agg_expr =>
      KeyTable.aggregate_by_key self key_expr agg_expr
  | KT_forall self code => KeyTable.forall_ self code
  | KT_exists self code => KeyTable.exists_ self code
  | KT_rename self column_names => KeyTable.rename self column_names
  | KT_expand_types self => KeyTable.expand_types self
  | KT_key_by self key_names => KeyTable.key_by self key_names
  | KT_flatten self => KeyTable.flatten self
  | KT_select self column_names => KeyTable.select self column_names
  | KT_to_dataframe self expand flatten => KeyTable.to_dataframe self expand flatten
  | KT_to_pandas self expand flatten => KeyTable.to_pandas self expand flatten
  | KT_export_mongodb self mode => KeyTable.export_mongodb self mode
  | KT_explode self column_names => KeyTable.explode self column_names
  | KT_repr self => KeyTable.__repr__ self
  | KT_typecheck self => KeyTable._typecheck self
  | HC_grep self regex path max_count => HailContext.grep self regex path max_count
  | HC_import_annotations_table self path variant_expr code npartitions config =>
      HailContext.import_annotations_table self path variant_expr code npartitions config
  | HC_import_bgen self path tolerance sample_file npartitions compress =>
      HailContext.import_bgen self path tolerance sample_file npartitions compress
  | HC_import_gen self path sample_file tolerance npartitions chromosome compress =>
      HailContext.import_gen self path sample_file tolerance npartitions chromosome compress
  | HC_import_keytable self path key_names npartitions config =>
      HailContext.import_keytable self path key_names npartitions config
  | HC_import_plink self bed bim fam npartitions delimiter missing quantpheno compress =>
      HailContext.import_plink self bed bim fam npartitions delimiter missing quantpheno
        compress
  | HC_read self path sites_only samples_only =>
      HailContext.read self path sites_only samples_only
  | HC_write_partitioning self path => HailContext.write_partitioning self path
  | HC_import_vcf self path force force_bgz header_file npartitions sites_only store_gq
      pp_as_pl skip_bad_ad compress =>
      HailContext.import_vcf self path force force_bgz header_file npartitions sites_only
        store_gq pp_as_pl skip_bad_ad compress
  | HC_index_bgen self path => HailContext.index_bgen self path
  | HC_balding_nichols_model self populations samples variants npartitions pop_dist fst
      af_dist seed =>
      HailContext.balding_nichols_model self populations samples variants npartitions
        pop_dist fst af_dist seed
  | HC_dataframe_to_keytable self df keys => HailContext.dataframe_to_keytable self df keys
  | HC_stop self => HailContext.stop self
  end.

(** The remote invocations made by running [m] in [w]. *)
Definition calls_of {A} (m : M A) (w : world) : list (rcall * reply) :=
  drop (length (trace w)) (trace (snd (m w))).

(** The KeyTable stored at [self], if any. *)
Definition keytable_at (w : world) (self : pyval) : option KeyTableObj :=
  match self with
  | PRef l => match heap w !! l with
              | Some (OKeyTable k) => Some k
              | _ => None
              end
  | _ => None
  end.

Definition hailcontext_at (w : world) (self : pyval) : option HailContextObj :=
  match self with
  | PRef l => match heap w !! l with
              | Some (OHailContext h) => Some h
              | _ => None
              end
  | _ => None
  end.

End Invoke.

(** ** A concrete bridge, to run the model

    A JVM that counts the invocations it has served.  Accessors answer with
    data, [nFields] throws on the first invocation the JVM serves and then
    answers with a number that grows with every invocation, [join] throws
    for a join type it does not know, and every other method returns a new
    proxy named after the target and the method. *)

Module Demo.

Definition known_join (how : pyval) : bool :=
  existsb (py_eq how) [PStr "inner"; PStr "outer"; PStr "left"; PStr "right"].

Definition fqn_of (t : pyval) : string :=
  match t with PJava fqn => fqn | _ => "py" end.

Definition demo_remote (c : rcall) (served : nat) : reply * nat :=
  let m := call_name c in
  let r :=
    if String.eqb m "nFields" then
      if Nat.eqb served 0 then Thrown (PStr "warming up")
      else Returned (PInt (Z.of_nat (7 + served)))
    else if String.eqb m "nRows" then Returned (PInt 4)
    else if String.eqb m "keyNames" then Returned (PList [PStr "ID"; PStr "SEX"])
    else if String.eqb m "fieldNames" then
      Returned (PList [PStr "ID"; PStr "HT"; PStr "SEX"; PStr "X"])
    else if String.eqb m "same" || String.eqb m "forall" || String.eqb m "exists" then
      Returned (PBool true)
    else if String.eqb m "join" then
      match call_args c with
      | [_; how] =>
          if known_join how
          then Returned (PJava (String.append (fqn_of (call_target c)) ".join"))
          else Thrown (PStr "unknown join type")
      | _ => Thrown (PStr "arity")
      end
    else if String.eqb m "grep" || String.eqb m "export" then Returned PNone
    else Returned (PJava (String.append (fqn_of (call_target c)) (String.append "." m)))
  in (r, S served).

#[export] Instance demo : Gateway := {|
  jvm := nat;
  remote := demo_remote;
  joption v := if py_truthy v then PInstance "Some" [v] else PInstance "None" [];
  jindexed_seq_args v :=
    PInstance "IndexedSeq" [if isinstance_basestring v then PList [v] else v];
  jarray t v := PInstance "Array" [t; v];
  scala_package_object p := p;
  Type_from_java s := PInstance "TStruct" [s];
  to_java c := c;
  jrep d := d
|}.

Definition hc0 : HailContextObj := {|
  _gateway := PJava "gateway"; _jvm := PJava "jvm"; _hail := PJava "is.hail";
  _jhc := PJava "jhc"; _jsc := PJava "jsc"; sc := PInstance "SparkContext" [];
  _jsql_context := PJava "jsql"; _sql_context := PInstance "SQLContext" [] |}.

Definition fresh_kt (jkt : string) : KeyTableObj := {|
  hc := PRef 0; _jkt := PJava jkt; _schema := PNone; _num_columns := PNone;
  _key_names := PNone; _column_names := PNone |}.

(** a session with a context at address 0 and two tables, at 1 and 2 *)
Definition w0 : world :=
  World 0 [] [OHailContext hc0; OKeyTable (fresh_kt "kt1"); OKeyTable (fresh_kt "kt2")].

(** the same session after the JVM has served one invocation *)
Definition w1 : world :=
  World 1 [] [OHailContext hc0; OKeyTable (fresh_kt "kt1"); OKeyTable (fresh_kt "kt2")].

(** a session whose table at 1 has read its key names already: names of
    Python 2, unicode *)
Definition w2 : world :=
  World 1 []
    [OHailContext hc0;
     OKeyTable {| hc := PRef 0; _jkt := PJava "kt1"; _schema := PNone;
                  _num_columns := PNone;
                  _key_names := PList [PUnicode (units_of "ID"); PUnicode (units_of "SEX")];
                  _column_names := PNone |}].

End Demo.

(** ** A second bridge: a JVM that is down

    It answers [signature] with a proxy and throws on every other
    invocation, and its [Type._from_java] yields a type that is no
    [TStruct]. *)

Module Outage.

Definition outage_remote (c : rcall) (served : nat) : reply * nat :=
  (if String.eqb (call_name c) "signature" then Returned (PJava "sig")
   else Thrown (PStr "connection lost"),
   S served).

Definition gateway : Gateway := {|
  jvm := nat;
  remote := outage_remote;
  joption v := if py_truthy v then PInstance "Some" [v] else PInstance "None" [];
  jindexed_seq_args v :=
    PInstance "IndexedSeq" [if isinstance_basestring v then PList [v] else v];
  jarray t v := PInstance "Array" [t; v];
  scala_package_object p := p;
  Type_from_java s := PInstance "TInt" [];
  to_java c := c;
  jrep d := d
|}.

(** a session with a context at address 0 and a table at 1 *)
Definition w0 : @world gateway :=
  World (G := gateway) 0 [] [OHailContext Demo.hc0; OKeyTable (Demo.fresh_kt "kt1")].

End Outage.

(** ** Vocabulary of the statements *)

(** The four memoised properties of a KeyTable and their cache fields. *)
Inductive property : Type := Schema | NumColumns | KeyNames | ColumnNames.

Definition cache (p : property) (k : KeyTableObj) : pyval :=
  match p with
  | Schema => _schema k
  | NumColumns => _num_columns k
  | KeyNames => _key_names k
  | ColumnNames => _column_names k
  end.

Definition set_cache (p : property) (v : pyval) (k : KeyTableObj) : KeyTableObj :=
  match p with
  | Schema => KeyTable.set_schema v k
  | NumColumns => KeyTable.set_num_columns v k
  | KeyNames => KeyTable.set_key_names v k
  | ColumnNames => KeyTable.set_column_names v k
  end.

(** The property an invocation reads on its receiver, directly or because
    the method body does ([key_by] reads [column_names], [select] reads
    [key_names]). *)
Definition reads_property (c : call) : option (pyval * property) :=
  match c with
  | KT_schema self => Some (self, Schema)
  | KT_num_columns self => Some (self, NumColumns)
  | KT_key_names self => Some (self, KeyNames)
  | KT_column_names self => Some (self, ColumnNames)
  | KT_key_by self _ => Some (self, ColumnNames)
  | KT_select self _ => Some (self, KeyNames)
  | _ => None
  end.

(** The transformations of a KeyTable and their receiver. *)
Definition transformation (c : call) : option pyval :=
  match c with
  | KT_filter self _ _ | KT_annotate self _ | KT_join self _ _
  | KT_aggregate_by_key self _ _ | KT_rename self _ | KT_expand_types self
  | KT_key_by self _ | KT_flatten self | KT_select self _ | KT_explode self _ =>
      Some self
  | _ => None
  end.

(** What a method hands back when it returns. *)
Inductive result_kind : Type :=
| Wrapped      (* a new local object around the handle the remote returned *)
| Raw          (* the value the remote returned, as it is *)
| Nothing      (* None *)
| Cached.      (* the content of a cache field *)

Definition kind_of (c : call) : result_kind :=
  match c with
  | KT_num_columns _ | KT_schema _ | KT_key_names _ | KT_column_names _ => Cached
  | KT_count_rows _ | KT_same _ _ | KT_forall _ _ | KT_exists _ _
  | KT_to_pandas _ _ _ | KT_repr _ => Raw
  | KT_export _ _ _ | KT_export_mongodb _ _ | KT_typecheck _ | HC_grep _ _ _ _
  | HC_write_partitioning _ _ | HC_index_bgen _ _ | HC_stop _ => Nothing
  | _ => Wrapped
  end.

(** The handle a local facade object holds. *)
Definition handle_of (o : obj) : option pyval :=
  match o with
  | OKeyTable k => Some (_jkt k)
  | OVariantDataset _ jvds => Some jvds
  | ODataFrame jdf _ => Some jdf
  | OHailContext _ => None
  end.

Definition is_Ok {A} (r : result A) : bool :=
  match r with Ok _ => true | Raise _ => false end.

Section Vocabulary.
Context `{G : Gateway}.

Definition read_property (p : property) (self : pyval) : M pyval :=
  match p with
  | Schema => KeyTable.schema self
  | NumColumns => KeyTable.num_columns self
  | KeyNames => KeyTable.key_names self
  | ColumnNames => KeyTable.column_names self
  end.

(** reading a property, as an invocation *)
Definition property_call (p : property) (self : pyval) : call :=
  match p with
  | Schema => KT_schema self
  | NumColumns => KT_num_columns self
  | KeyNames => KT_key_names self
  | ColumnNames => KT_column_names self
  end.

(** Is the cache of [p] filled in the table at [self]? *)
Definition cached (w : world) (self : pyval) (p : property) : bool :=
  match keytable_at w self with
  | Some k => negb (is_None (cache p k))
  | None => false
  end.

Definition fetches (w : world) (self : pyval) (p : property) : nat :=
  if cached w self p then 0 else 1.

Definition flag (v : pyval) : nat := if py_truthy v then 1 else 0.

(** The number of remote invocations of an invocation that returns. *)
Definition expected_calls (c : call) (w : world) : nat :=
  match c with
  | KT_schema self => fetches w self Schema
  | KT_num_columns self => fetches w self NumColumns
  | KT_key_names self => fetches w self KeyNames
  | KT_column_names self => fetches w self ColumnNames
  | KT_key_by self _ => fetches w self ColumnNames + 1
  | KT_select self _ => fetches w self KeyNames + 1
  | KT_to_dataframe _ expand flatten => flag expand + flag flatten + 1
  | KT_to_pandas _ expand flatten => flag expand + flag flatten + 2
  | _ => 1
  end.

(** [r] is a reference to a facade object of [w] that holds the handle [v]. *)
Definition wraps (w : world) (r v : pyval) : Prop :=
  exists l o, r = PRef l /\ heap w !! l = Some o /\ handle_of o = Some v.

(** the answer to the last invocation of a trace *)
Definition last_reply (t : list (rcall * reply)) : option reply :=
  snd <$> last t.

(** [wp m Q w]: running [m] in [w] ends in an outcome and a world that
    satisfy [Q].  Computations are total functions, so this says both that
    [m] ends and how. *)
Definition wp {A} (m : M A) (Q : result A -> world -> Prop) (w : world) : Prop :=
  Q (fst (m w)) (snd (m w)).

(** A KeyTable object as [__init__] leaves it. *)
Definition new_keytable (hc jkt : pyval) : KeyTableObj :=
  {| hc := hc; _jkt := jkt; _schema := PNone; _num_columns := PNone;
     _key_names := PNone; _column_names := PNone |}.

(** What an invocation may do to a KeyTable [k] stored at [l]: nothing, or
    fill the empty cache of the property it reads on that object. *)
Definition kept_or_filled (c : call) (l : nat) (k k' : KeyTableObj) : Prop :=
  k' = k \/
  exists p v, reads_property c = Some (PRef l, p) /\ cache p k = PNone /\
              k' = set_cache p v k.

(** An object is as its constructor leaves it. *)
Definition as_init (o : obj) : Prop :=
  match o with
  | OKeyTable k => k = new_keytable (hc k) (_jkt k)
  | _ => True
  end.

(** What an invocation may do to the store [h]: the KeyTables in it are
    kept or get a cache filled, and a KeyTable that is new in [h'] is as
    [__init__] leaves it. *)
Definition store_effect (c : call) (h h' : list obj) : Prop :=
  (forall l k, h !! l = Some (OKeyTable k) ->
     exists k', h' !! l = Some (OKeyTable k') /\ kept_or_filled c l k k') /\
  (forall l k', length h <= l -> h' !! l = Some (OKeyTable k') ->
     k' = new_keytable (hc k') (_jkt k')).

(** What an invocation that returns [a] hands back, by the kind of method. *)
Definition result_spec (c : call) (w : world) (a : pyval) (w' : world) : Prop :=
  let new_calls := drop (length (trace w)) (trace w') in
  match kind_of c with
  | Wrapped =>
      exists v o,
        last_reply new_calls = Some (Returned v) /\
        a = PRef (length (heap w)) /\
        heap w' !! length (heap w) = Some o /\
        handle_of o = Some v /\
        (forall self k, transformation c = Some self -> keytable_at w self = Some k ->
           o = OKeyTable (new_keytable (hc k) v))
  | Raw => last_reply new_calls = Some (Returned a)
  | Nothing => a = PNone
  | Cached =>
      exists self p k',
        reads_property c = Some (self, p) /\ keytable_at w' self = Some k' /\
        a = cache p k' /\ (p <> NumColumns -> a <> PNone)
  end.

(** What can happen between two invocations on a session: an invocation, or
    the JVM moving on by itself (other clients, time). *)
Inductive step : world -> world -> Prop :=
| step_invoke c w : step w (snd (invoke c w))
| step_remote w e t : step w (World e t (heap w)).

(** *** The sentences of the specification, as they are written *)

(** "returns a wrapped handle for every successful remote call" *)
Definition returns_wrapped_handle (c : call) (w : world) : Prop :=
  forall r w' v,
    invoke c w = (Ok r, w') ->
    last_reply (calls_of (invoke c) w) = Some (Returned v) ->
    wraps w' r v.

(** "no operation writes any local field" of a KeyTable *)
Definition writes_no_field (c : call) (w : world) : Prop :=
  forall l k, heap w !! l = Some (OKeyTable k) ->
              heap (snd (invoke c w)) !! l = Some (OKeyTable k).

(** "one invocation consists of exactly one remote call" *)
Definition single_remote_call (c : call) (w : world) : Prop :=
  forall r w', invoke c w = (Ok r, w') -> length (calls_of (invoke c) w) = 1.

(** "leaves the receiver unchanged" *)
Definition receiver_unchanged (c : call) (w : world) : Prop :=
  forall self k,
    transformation c = Some self -> keytable_at w self = Some k ->
    keytable_at (snd (invoke c w)) self = Some k.

(** "the remote accessor is invoked at most once per object": over two
    successive reads of a property of the same object *)
Definition accessor_calls_of_two_reads (p : property) (self : pyval) (w : world) : nat :=
  length (calls_of (read_property p self) w) +
  length (calls_of (read_property p self) (snd (read_property p self w))).

Definition accessor_at_most_once (p : property) (self : pyval) (w : world) : Prop :=
  accessor_calls_of_two_reads p self w <= 1.

End Vocabulary.

(** ** Vocabulary of the further properties *)

(** The methods that carry the decorator [handle_py4j]: all but the four
    properties, [__repr__], [join] and [stop]. *)
Definition decorated (c : call) : bool :=
  match c with
  | KT_num_columns _ | KT_schema _ | KT_key_names _ | KT_column_names _
  | KT_repr _ | KT_join _ _ _ | HC_stop _ => false
  | _ => true
  end.

(** The exception a method ends with when the JVM throws [x]. *)
Definition failure_of (c : call) (x : pyval) : pyexn :=
  if decorated c then FatalError x else Py4JJavaError x.

Definition is_Returned (r : reply) : bool :=
  match r with Returned _ => true | Thrown _ => false end.

(** A chain of invocations: the first one is made on [first], and each
    further one on what the one before returned. *)
Fixpoint chained (first : pyval) (t : list (rcall * reply)) : Prop :=
  match t with
  | [] => True
  | (c, r) :: t' =>
      call_target c = first /\
      match r with
      | Returned v => chained v t'
      | Thrown _ => t' = []
      end
  end.

(** The methods that construct a local object before they return. *)
Definition allocates (c : call) : bool :=
  match kind_of c with
  | Wrapped => true
  | _ => match c with KT_to_pandas _ _ _ => true | _ => false end
  end.

(** [sep.join(items)] for strings, as a function on strings *)
Definition joined (sep : string) (items : list string) : string :=
  String.concat sep items.

(** ** Reasoning about computations

    One rule of [wp] per primitive of the runtime; the tactic [wp_run]
    executes a method body with them. *)

Section Rules.
Context `{G : Gateway}.

Lemma wp_ret {A} (a : A) Q w : Q (Ok a) w -> wp (ret a) Q w.
Proof. exact (fun H => H). Qed.

Lemma wp_raise {A} e (Q : result A -> world -> Prop) w : Q (Raise e) w -> wp (raise e) Q w.
Proof. exact (fun H => H). Qed.

Lemma wp_lift {A} (r : result A) Q w : Q r w -> wp (lift r) Q w.
Proof. exact (fun H => H). Qed.

Lemma wp_bind {A B} (m : M A) (k : A -> M B) Q w :
  wp m (fun r w' => match r with
                    | Ok a => wp (k a) Q w'
                    | Raise e => Q (Raise e) w'
                    end) w ->
  wp (bind m k) Q w.
Proof. unfold wp, bind. destruct (m w) as [[a|e] w']; simpl; auto. Qed.

Lemma wp_handle_py4j {A} (f : M A) Q w :
  wp f (fun r w' => match r with
                    | Raise (Py4JJavaError x) => Q (Raise (FatalError x)) w'
                    | _ => Q r w'
                    end) w ->
  wp (handle_py4j f) Q w.
Proof. unfold wp, handle_py4j. destruct (f w) as [[a|[]] w']; simpl; auto. Qed.

Lemma wp_jcall t m a Q w :
  (callable t = false -> Q (Raise (AttributeError m)) w) ->
  (callable t = true -> forall r e', remote (RCall t m a) (engine w) = (r, e') ->
     Q (match r with Returned v => Ok v | Thrown x => Raise (Py4JJavaError x) end)
       (World e' (trace w ++ [(RCall t m a, r)]) (heap w))) ->
  wp (jcall t m a) Q w.
Proof.
  intros Hno Hyes. unfold wp, jcall. destruct (callable t); [|auto].
  specialize (Hyes eq_refl). destruct (remote _ _) as [r e'].
  specialize (Hyes _ _ eq_refl). destruct r; exact Hyes.
Qed.

Lemma wp_jattr p a Q w :
  (forall fqn, p = PJava fqn ->
     Q (Ok (PJava (String.append fqn (String.append "." a)))) w) ->
  Q (Raise (AttributeError a)) w ->
  wp (jattr p a) Q w.
Proof. intros Hj He. destruct p; try exact He. exact (Hj _ eq_refl). Qed.

Lemma wp_load r attr Q w :
  (forall l o, r = PRef l -> heap w !! l = Some o -> Q (Ok o) w) ->
  (forall s, Q (Raise (AttributeError s)) w) ->
  wp (load r attr) Q w.
Proof.
  intros Hok He. unfold wp, load. destruct r; try apply He.
  destruct (heap w !! l) eqn:E; [exact (Hok _ _ eq_refl E) | apply He].
Qed.

Lemma wp_alloc o Q w :
  Q (Ok (PRef (length (heap w)))) (World (engine w) (trace w) (heap w ++ [o])) ->
  wp (alloc o) Q w.
Proof. exact (fun H => H). Qed.

Lemma wp_kt_get self attr f Q w :
  (forall l k, self = PRef l -> heap w !! l = Some (OKeyTable k) -> Q (Ok (f k)) w) ->
  (keytable_at w self = None -> forall s, Q (Raise (AttributeError s)) w) ->
  wp (KeyTable.get self attr f) Q w.
Proof.
  intros Hok He. unfold wp, KeyTable.get, bind, load, store, ret, raise, keytable_at in *.
  destruct self; cbn; try (apply He; reflexivity).
  destruct (heap w !! l) as [[]|] eqn:Hl; cbn; try (apply He; reflexivity).
  exact (Hok _ _ eq_refl Hl).
Qed.

Lemma wp_kt_set self attr upd Q w :
  (forall l k, self = PRef l -> heap w !! l = Some (OKeyTable k) ->
     Q (Ok tt) (World (engine w) (trace w) (<[l:=OKeyTable (upd k)]> (heap w)))) ->
  (keytable_at w self = None -> forall s, Q (Raise (AttributeError s)) w) ->
  wp (KeyTable.set self attr upd) Q w.
Proof.
  intros Hok He. unfold wp, KeyTable.set, bind, load, store, ret, raise, keytable_at in *.
  destruct self; cbn; try (apply He; reflexivity).
  destruct (heap w !! l) as [[]|] eqn:Hl; cbn; try (apply He; reflexivity).
  exact (Hok _ _ eq_refl Hl).
Qed.

Lemma wp_hc_get self attr f Q w :
  (forall l h, self = PRef l -> heap w !! l = Some (OHailContext h) -> Q (Ok (f h)) w) ->
  (hailcontext_at w self = None -> forall s, Q (Raise (AttributeError s)) w) ->
  wp (HailContextFields.get self attr f) Q w.
Proof.
  intros Hok He. unfold wp, HailContextFields.get, bind, load, store, ret, raise, hailcontext_at in *.
  destruct self; cbn; try (apply He; reflexivity).
  destruct (heap w !! l) as [[]|] eqn:Hl; cbn; try (apply He; reflexivity).
  exact (Hok _ _ eq_refl Hl).
Qed.

Lemma wp_hc_set self attr upd Q w :
  (forall l h, self = PRef l -> heap w !! l = Some (OHailContext h) ->
     Q (Ok tt) (World (engine w) (trace w) (<[l:=OHailContext (upd h)]> (heap w)))) ->
  (hailcontext_at w self = None -> forall s, Q (Raise (AttributeError s)) w) ->
  wp (HailContextFields.set self attr upd) Q w.
Proof.
  intros Hok He. unfold wp, HailContextFields.set, bind, load, store, ret, raise, hailcontext_at in *.
  destruct self; cbn; try (apply He; reflexivity).
  destruct (heap w !! l) as [[]|] eqn:Hl; cbn; try (apply He; reflexivity).
  exact (Hok _ _ eq_refl Hl).
Qed.

Lemma wp_DataFrame_jdf df Q w :
  (forall l jdf sql, df = PRef l -> heap w !! l = Some (ODataFrame jdf sql) ->
     Q (Ok jdf) w) ->
  (forall s, Q (Raise (AttributeError s)) w) ->
  wp (DataFrame_jdf df) Q w.
Proof.
  intros Hok He. unfold DataFrame_jdf. apply wp_bind, wp_load; [|apply He].
  intros l [] -> Hl; try apply He. exact (Hok _ _ _ eq_refl Hl).
Qed.

Lemma wp_call_to_java config Q w :
  (callable config = true -> Q (Ok (to_java config)) w) ->
  Q (Raise (AttributeError "_to_java")) w ->
  wp (HailContext.call_to_java config) Q w.
Proof. intros Hok He. destruct config; try exact He; exact (Hok eq_refl). Qed.

Lemma wp_call_jrep dist Q w :
  (callable dist = true -> Q (Ok (jrep dist)) w) ->
  Q (Raise (AttributeError "_jrep")) w ->
  wp (HailContext.call_jrep dist) Q w.
Proof. intros Hok He. destruct dist; try exact He; exact (Hok eq_refl). Qed.

(** Reading [wp] back as a statement about the run. *)
Lemma wp_run_eq {A} (m : M A) (Q : result A -> world -> Prop) w r w' :
  wp m Q w -> m w = (r, w') -> Q r w'.
Proof. unfold wp. intros H E. rewrite E in H. exact H. Qed.

End Rules.

Ltac unfold_method :=
  unfold invoke, read_property,
    KeyTable.num_columns, KeyTable.schema, KeyTable.key_names, KeyTable.column_names,
    KeyTable.count_rows, KeyTable.same, KeyTable.export, KeyTable.filter,
    KeyTable.annotate, KeyTable.join, KeyTable.aggregate_by_key, KeyTable.forall_,
    KeyTable.exists_, KeyTable.rename, KeyTable.expand_types, KeyTable.key_by,
    KeyTable.flatten, KeyTable.select, KeyTable.to_dataframe, KeyTable.to_pandas,
    KeyTable.export_mongodb, KeyTable.explode, KeyTable.__repr__, KeyTable._typecheck,
    KeyTable.__init__,
    HailContext.grep, HailContext.import_annotations_table, HailContext.import_bgen,
    HailContext.import_gen, HailContext.import_keytable, HailContext.import_plink,
    HailContext.read, HailContext.write_partitioning, HailContext.import_vcf,
    HailContext.index_bgen, HailContext.balding_nichols_model,
    HailContext.dataframe_to_keytable, HailContext.stop, HailContext.get,
    VariantDataset, DataFrame.

(** Normalise what is known about the store after a step. *)
Ltac tidy :=
  cbn [heap trace engine fst snd] in *;
  simplify_eq;
  repeat match goal with
  | H : <[?l:=?o]> ?h !! ?l = _, H' : ?h !! ?l = Some _ |- _ =>
      rewrite (list_lookup_insert_eq h l o) in H by (eapply lookup_lt_Some; exact H')
  | H : context [<[?l:=?o]> ?h !! ?l], H' : ?h !! ?l = Some _ |- _ =>
      rewrite (list_lookup_insert_eq h l o) in H by (eapply lookup_lt_Some; exact H')
  end;
  simplify_eq;
  try match goal with
  | H : keytable_at _ (PRef ?l) = None, H' : _ !! ?l = Some _ |- _ =>
      exfalso; unfold keytable_at in H; cbn [heap] in H; rewrite H' in H; discriminate H
  | H : hailcontext_at _ (PRef ?l) = None, H' : _ !! ?l = Some _ |- _ =>
      exfalso; unfold hailcontext_at in H; cbn [heap] in H; rewrite H' in H; discriminate H
  end.

Ltac wp_step :=
  lazymatch goal with
  | |- wp (bind _ _) _ _ => apply wp_bind
  | |- wp (handle_py4j _) _ _ => apply wp_handle_py4j
  | |- wp (ret _) _ _ => apply wp_ret
  | |- wp (raise _) _ _ => apply wp_raise
  | |- wp (lift ?r) _ _ => apply wp_lift; destruct r eqn:?
  | |- wp (jcall _ _ _) _ _ =>
      apply wp_jcall; [intros ? | intros ? [?|?] ? ?]
  | |- wp (jattr _ _) _ _ => apply wp_jattr; [intros ? ? | ]
  | |- wp (alloc _) _ _ => apply wp_alloc
  | |- wp (KeyTable.get _ _ _) _ _ => apply wp_kt_get; [intros ? ? ? ? | intros ? ?]
  | |- wp (KeyTable.set _ _ _) _ _ => apply wp_kt_set; [intros ? ? ? ? | intros ? ?]
  | |- wp (HailContextFields.get _ _ _) _ _ =>
      apply wp_hc_get; [intros ? ? ? ? | intros ? ?]
  | |- wp (HailContextFields.set _ _ _) _ _ =>
      apply wp_hc_set; [intros ? ? ? ? | intros ? ?]
  | |- wp (DataFrame_jdf _) _ _ => apply wp_DataFrame_jdf; [intros ? ? ? ? ? | intros ?]
  | |- wp (HailContext.call_to_java _) _ _ => apply wp_call_to_java; [intros ? | ]
  | |- wp (HailContext.call_jrep _) _ _ => apply wp_call_jrep; [intros ? | ]
  | |- wp (if ?b then _ else _) _ _ => destruct b eqn:?
  | |- wp (match ?x with _ => _ end) _ _ => destruct x eqn:?
  | |- wp _ _ _ => progress (unfold_method; cbv zeta)
  | |- match ?x with _ => _ end => destruct x
  end; tidy.

Ltac wp_run := repeat wp_step.

(** Use what is known about the store wherever it is looked up. *)
Ltac use_lookups :=
  repeat match goal with
  | H : ?h !! ?l = Some _ |- context [?h !! ?l] => rewrite H
  | H : ?h !! ?l = Some _, H' : context [?h !! ?l] |- _ =>
      lazymatch H' with H => fail | _ => rewrite H in H' end
  end.

(** ** What every invocation does *)

Section Effects.
Context `{G : Gateway}.

Lemma drop_own {A} (t : list A) : drop (length t) t = [].
Proof. apply drop_all. Qed.
Lemma drop_1 {A} (t : list A) x : drop (length t) (t ++ [x]) = [x].
Proof. apply drop_app_length. Qed.
Lemma drop_2 {A} (t : list A) x y : drop (length t) ((t ++ [x]) ++ [y]) = [x; y].
Proof. rewrite <- app_assoc. apply drop_app_length. Qed.
Lemma drop_3 {A} (t : list A) x y z :
  drop (length t) (((t ++ [x]) ++ [y]) ++ [z]) = [x; y; z].
Proof. rewrite <- !app_assoc. apply drop_app_length. Qed.
Lemma drop_4 {A} (t : list A) x y z u :
  drop (length t) ((((t ++ [x]) ++ [y]) ++ [z]) ++ [u]) = [x; y; z; u].
Proof. rewrite <- !app_assoc. apply drop_app_length. Qed.

Lemma is_None_true v : is_None v = true -> v = PNone.
Proof. destruct v; (reflexivity || discriminate). Qed.

Lemma is_None_false v : is_None v = false -> v <> PNone.
Proof. intros H ->. discriminate H. Qed.

(** The trace only grows, by at most the number of invocations the method
    is written to make, and by exactly that number when it returns. *)
Lemma invoke_count c w :
  wp (invoke c) (fun r w' =>
    trace w' = trace w ++ drop (length (trace w)) (trace w') /\
    length (drop (length (trace w)) (trace w')) <= expected_calls c w /\
    (is_Ok r = true ->
     length (drop (length (trace w)) (trace w')) = expected_calls c w)) w.
Proof.
  destruct w as [e t h].
  destruct c; wp_run.
  all: rewrite ?drop_own, ?drop_1, ?drop_2, ?drop_3, ?drop_4.
  all: unfold expected_calls, fetches, cached, keytable_at, cache, flag;
    cbn [heap length is_Ok].
  all: repeat match goal with
       | H : ?x = _ |- context [?x] => rewrite H
       end; cbn.
  all: rewrite <- ?app_assoc, ?app_nil_r.
  all: split; [reflexivity | split; [lia | intros; (lia || discriminate)]].
Qed.

(** *** The store *)

Lemma store_effect_refl c h : store_effect c h h.
Proof.
  split.
  - intros l k Hl. exists k. split; [exact Hl | left; reflexivity].
  - intros l k' Hle Hl. apply lookup_lt_Some in Hl. lia.
Qed.

Lemma store_effect_alloc c h h' o :
  store_effect c h h' -> length h' = length h -> as_init o ->
  store_effect c h (h' ++ [o]).
Proof.
  intros [Hold Hnew] Hlen Ho. split.
  - intros l k Hl. destruct (Hold l k Hl) as (k' & Hl' & Hk). exists k'.
    split; [|exact Hk]. rewrite lookup_app_l; [exact Hl'|].
    eapply lookup_lt_Some; exact Hl'.
  - intros l k' Hle Hl. apply lookup_snoc_Some in Hl as [[Hlt _]|[_ ->]].
    + lia.
    + exact Ho.
Qed.

Lemma store_effect_fill c h l p v k :
  h !! l = Some (OKeyTable k) -> reads_property c = Some (PRef l, p) ->
  cache p k = PNone ->
  store_effect c h (<[l:=OKeyTable (set_cache p v k)]> h).
Proof.
  intros Hl Hc Hp. split.
  - intros l0 k0 Hl0. destruct (decide (l0 = l)) as [->|Hne].
    + rewrite list_lookup_insert_eq by (eapply lookup_lt_Some; exact Hl).
      rewrite Hl in Hl0. injection Hl0 as <-.
      eexists. split; [reflexivity|]. right. exists p, v. auto.
    + rewrite list_lookup_insert_ne by congruence.
      exists k0. split; [exact Hl0 | left; reflexivity].
  - intros l0 k' Hle Hl0. apply lookup_lt_Some in Hl0.
    rewrite length_insert in Hl0. lia.
Qed.

Lemma store_effect_context c h l o o' :
  h !! l = Some (OHailContext o) ->
  store_effect c h (<[l:=OHailContext o']> h).
Proof.
  intros Hl. split.
  - intros l0 k0 Hl0. destruct (decide (l0 = l)) as [->|Hne]; [congruence|].
    rewrite list_lookup_insert_ne by congruence.
    exists k0. split; [exact Hl0 | left; reflexivity].
  - intros l0 k' Hle Hl0. apply lookup_lt_Some in Hl0.
    rewrite length_insert in Hl0. lia.
Qed.

(** Every invocation, whether it returns or raises, keeps the handle and the
    context of every KeyTable and touches no field but an empty cache. *)
Lemma invoke_store c w :
  wp (invoke c) (fun _ w' => store_effect c (heap w) (heap w')) w.
Proof.
  destruct w as [e t h].
  destruct c; wp_run.
  all: first
    [ apply store_effect_refl
    | apply store_effect_alloc; [apply store_effect_refl | reflexivity | exact I || reflexivity]
    | eapply store_effect_context; eassumption
    | match goal with
      | H : is_None _ = true |- _ => apply is_None_true in H
      end;
      first
      [ eapply (store_effect_fill _ _ _ Schema); [eassumption | reflexivity | eassumption]
      | eapply (store_effect_fill _ _ _ NumColumns); [eassumption | reflexivity | eassumption]
      | eapply (store_effect_fill _ _ _ KeyNames); [eassumption | reflexivity | eassumption]
      | eapply (store_effect_fill _ _ _ ColumnNames); [eassumption | reflexivity | eassumption]
      | apply store_effect_alloc;
        [ first
          [ eapply (store_effect_fill _ _ _ KeyNames); [eassumption | reflexivity | eassumption]
          | eapply (store_effect_fill _ _ _ ColumnNames);
            [eassumption | reflexivity | eassumption] ]
        | apply length_insert
        | reflexivity ] ] ].
Qed.

(** *** The result *)

Lemma py_list_not_None v a : py_list v = Ok a -> a <> PNone.
Proof. destruct v; cbn; intros H; inversion H; discriminate. Qed.

Lemma TStruct_not_None v : isinstance_TStruct v = true -> v <> PNone.
Proof. intros H ->. discriminate H. Qed.


Lemma lookup_new {A} (h h' : list A) o :
  length h' = length h -> (h' ++ [o]) !! length h = Some o.
Proof. intros H. apply list_lookup_middle. symmetry. exact H. Qed.

(** An invocation that returns hands back what its kind says. *)
Lemma invoke_result c w :
  wp (invoke c) (fun r w' => forall a, r = Ok a -> result_spec c w a w') w.
Proof.
  destruct w as [e t h].
  destruct c; wp_run.
  all: intros ? Ha0; try discriminate Ha0; injection Ha0 as <-.
  all: unfold result_spec; cbn [kind_of trace heap].
  all: rewrite ?drop_own, ?drop_1, ?drop_2, ?drop_3, ?drop_4.
  all: try reflexivity.
  all: try (eexists _, _, _; split; [reflexivity|];
       unfold keytable_at; cbn [heap];
       rewrite ?list_lookup_insert_eq by (eapply lookup_lt_Some; eassumption);
       use_lookups;
       split; [reflexivity|]; split; [reflexivity|]; cbn [cache];
       first [ intros Hp; exfalso; apply Hp; reflexivity
             | intros _; cbn;
               eauto using is_None_false, py_list_not_None, TStruct_not_None ]).
  all: eexists _, _; split; [reflexivity|]; rewrite ?length_insert;
       split; [reflexivity|];
       split; [apply lookup_new; rewrite ?length_insert; reflexivity|];
       split; [reflexivity|];
       cbn [transformation]; intros ? ? Ht Hk; try discriminate Ht;
       unfold keytable_at in Hk; cbn [heap] in Hk; simplify_eq; use_lookups;
       simplify_eq; reflexivity.
Qed.

End Effects.

(** ** The claims of the specification *)

Section Claims.
Context `{G : Gateway}.

Lemma invoke_count_run c w r w' :
  invoke c w = (r, w') ->
  trace w' = trace w ++ calls_of (invoke c) w /\
  length (calls_of (invoke c) w) <= expected_calls c w /\
  (is_Ok r = true -> length (calls_of (invoke c) w) = expected_calls c w).
Proof.
  intros E. pose proof (invoke_count c w) as H. unfold wp in H.
  unfold calls_of. rewrite E in *. exact H.
Qed.

Lemma read_property_invoke p self : read_property p self = invoke (property_call p self).
Proof. destruct p; reflexivity. Qed.

Lemma read_cached p self w k :
  keytable_at w self = Some k -> cache p k <> PNone ->
  read_property p self w = (Ok (cache p k), w).
Proof.
  intros Hk Hc. unfold keytable_at in Hk.
  destruct self; try discriminate Hk.
  destruct (heap w !! l) as [[]|] eqn:Hl; try discriminate Hk. injection Hk as ->.
  assert (is_None (cache p k) = false) as Hn by (destruct (cache p k); [congruence | reflexivity ..]).
  destruct p; cbn [cache] in *; unfold read_property; unfold_method;
    unfold KeyTable.get, bind, load, ret; cbn; rewrite Hl; cbn; rewrite Hn; cbn;
    rewrite Hl; reflexivity.
Qed.

Lemma cache_set_other p q v k : p <> q -> cache p (set_cache q v k) = cache p k.
Proof. destruct p, q; intros H; try reflexivity; congruence. Qed.

Lemma step_keeps_cache p self w w' k :
  step w w' -> keytable_at w self = Some k -> cache p k <> PNone ->
  exists k', keytable_at w' self = Some k' /\ cache p k' = cache p k.
Proof.
  intros Hs Hk Hc. destruct Hs as [c w|w e t]; [|exists k; split; [exact Hk|reflexivity]].
  unfold keytable_at in *. destruct self; try discriminate Hk.
  destruct (heap w !! l) as [[]|] eqn:Hl; try discriminate Hk. injection Hk as ->.
  destruct (invoke_store c w) as [Hold _].
  destruct (Hold _ _ Hl) as (k' & Hl' & [->|(q & v & _ & Hq & ->)]);
    rewrite Hl'; eexists; (split; [reflexivity|]); [reflexivity|].
  apply cache_set_other. intros ->. contradiction.
Qed.

Lemma later_keeps_cache p self w w' k :
  rtc step w w' -> keytable_at w self = Some k -> cache p k <> PNone ->
  exists k', keytable_at w' self = Some k' /\ cache p k' = cache p k.
Proof.
  intros Hs. revert k. induction Hs as [w|w w1 w2 H1 H2 IH]; intros k Hk Hc.
  - exists k. split; [exact Hk | reflexivity].
  - destruct (step_keeps_cache p self _ _ _ H1 Hk Hc) as (k1 & Hk1 & E1).
    destruct (IH k1 Hk1) as (k2 & Hk2 & E2); [congruence|].
    exists k2. split; [exact Hk2 | congruence].
Qed.

(** Claim C9, as amended.  Once a read of [num_columns], [schema], [key_names]
    or [column_names] has returned a value [v] (for [num_columns]: a value
    other than [None], the mark of an empty cache), the read made at most one
    remote invocation, and every later read on the same object, after any
    number of invocations and whatever the JVM has become, returns [v] and
    leaves the world as it is: no remote invocation, and so an accessor that
    has answered is never asked again. *)
Theorem properties_memoized p self w v w1 :
  read_property p self w = (Ok v, w1) ->
  (p = NumColumns -> v <> PNone) ->
  length (calls_of (read_property p self) w) <= 1 /\
  forall w2, rtc step w1 w2 -> read_property p self w2 = (Ok v, w2).
Proof.
  intros E Hv. rewrite read_property_invoke in E. split.
  - rewrite read_property_invoke.
    destruct (invoke_count_run _ _ _ _ E) as (_ & Hle & _).
    etransitivity; [exact Hle|]. destruct p; cbn; unfold fetches; destruct (cached _ _ _); lia.
  - pose proof (invoke_result (property_call p self) w) as H. unfold wp in H.
    rewrite E in H. specialize (H v eq_refl). unfold result_spec in H.
    assert (kind_of (property_call p self) = Cached) as Hkind by (destruct p; reflexivity).
    rewrite Hkind in H. destruct H as (self' & p' & k' & Hr & Hk & Hc & Hn).
    assert (self' = self /\ p' = p) as [-> ->] by (destruct p; cbn in Hr; split; congruence).
    cbn [snd] in Hk.
    assert (cache p k' <> PNone) as Hne.
    { rewrite <- Hc. destruct p; (apply Hv; reflexivity) || (apply Hn; discriminate). }
    intros w2 Hs.
    destruct (later_keeps_cache p self _ _ _ Hs Hk Hne) as (k2 & Hk2 & E2).
    rewrite (read_cached p self w2 k2 Hk2) by congruence. congruence.
Qed.

Lemma invoke_result_run c w r w' : invoke c w = (Ok r, w') -> result_spec c w r w'.
Proof.
  intros E. pose proof (invoke_result c w) as H. unfold wp in H.
  rewrite E in H. exact (H r eq_refl).
Qed.

Lemma invoke_store_run c w :
  store_effect c (heap w) (heap (snd (invoke c w))).
Proof. exact (invoke_store c w). Qed.

Lemma kept_or_filled_handle c l k k' :
  kept_or_filled c l k k' -> hc k' = hc k /\ _jkt k' = _jkt k.
Proof. intros [->|(p & v & _ & _ & ->)]; [auto | destruct p; auto]. Qed.

(** Claim C3, as amended.  What a returning invocation hands back depends on
    the kind of method: a method whose remote call yields a table, dataset or
    data frame returns a new local object (at the next free address) that
    holds the handle the remote returned last; [count_rows], [same],
    [forall], [exists], [to_pandas] and [__repr__] return the remote value
    itself; [grep], [export], [export_mongodb], [write_partitioning],
    [index_bgen], [stop] and [_typecheck] return [None]; a property returns
    the content of its cache field. *)
Theorem result_by_kind c w r w' :
  invoke c w = (Ok r, w') ->
  match kind_of c with
  | Wrapped =>
      exists v, last_reply (calls_of (invoke c) w) = Some (Returned v) /\
                wraps w' r v /\ r = PRef (length (heap w))
  | Raw => last_reply (calls_of (invoke c) w) = Some (Returned r)
  | Nothing => r = PNone
  | Cached =>
      exists self p k', reads_property c = Some (self, p) /\
                        keytable_at w' self = Some k' /\ r = cache p k'
  end.
Proof.
  intros E. pose proof (invoke_result_run _ _ _ _ E) as H.
  unfold result_spec, calls_of in *. rewrite E. cbn [snd].
  destruct (kind_of c).
  - destruct H as (v & o & Hl & -> & Ho & Hh & _). exists v.
    split; [exact Hl|]. split; [|reflexivity].
    exists (length (heap w)), o. split; [reflexivity|]. split; assumption.
  - exact H.
  - exact H.
  - destruct H as (self & p & k' & H1 & H2 & H3 & _). exists self, p, k'. auto.
Qed.

(** Claim C4, as amended.  A KeyTable holds its context, its remote handle
    and four cache fields.  Whatever is invoked and however it ends, every
    KeyTable of the store is still there with the same context and handle,
    and either with all fields as before or with one empty cache field
    filled, the one of the property that the invocation reads on that very
    object; and a KeyTable that is new in the store has its four cache fields
    empty. *)
Theorem keytable_fields_change_only_by_cache_fill c w :
  (forall l k, heap w !! l = Some (OKeyTable k) ->
     exists k', heap (snd (invoke c w)) !! l = Some (OKeyTable k') /\
                hc k' = hc k /\ _jkt k' = _jkt k /\ kept_or_filled c l k k') /\
  (forall l k', length (heap w) <= l ->
     heap (snd (invoke c w)) !! l = Some (OKeyTable k') ->
     k' = new_keytable (hc k') (_jkt k')).
Proof.
  destruct (invoke_store_run c w) as [Hold Hnew]. split; [|exact Hnew].
  intros l k Hl. destruct (Hold l k Hl) as (k' & Hl' & Hk). exists k'.
  destruct (kept_or_filled_handle _ _ _ _ Hk). auto.
Qed.

(** Claim C5, as amended.  An invocation that returns has appended to the
    trace exactly [expected_calls] remote invocations: one for most methods;
    none or one for a property, as its cache is filled or empty; one more
    than that for [key_by] and [select]; one, plus one for each of [expand]
    and [flatten] that is true, for [to_dataframe]; and one more than that
    for [to_pandas]. *)
Theorem remote_calls_of_an_invocation c w r w' :
  invoke c w = (Ok r, w') ->
  trace w' = trace w ++ calls_of (invoke c) w /\
  length (calls_of (invoke c) w) = expected_calls c w.
Proof.
  intros E. destruct (invoke_count_run _ _ _ _ E) as (Ht & _ & Hn).
  split; [exact Ht | exact (Hn eq_refl)].
Qed.

(** Claim C6, as amended.  For each of the ten transformations, however the
    invocation ends, the receiver keeps its context and its remote handle,
    and all its fields unless the method reads a property whose cache was
    empty ([key_by]: [column_names]; [select]: [key_names]), which is then
    filled; and when the invocation returns, it returns a reference to a new
    object, a KeyTable as [__init__] leaves it, with the context of the
    receiver and the handle the remote returned last. *)
Theorem transformation_keeps_receiver c self w k :
  transformation c = Some self ->
  keytable_at w self = Some k ->
  (exists k', keytable_at (snd (invoke c w)) self = Some k' /\
     hc k' = hc k /\ _jkt k' = _jkt k /\
     (k' = k \/
      exists p v, reads_property c = Some (self, p) /\ cache p k = PNone /\
                  k' = set_cache p v k)) /\
  (forall r, fst (invoke c w) = Ok r ->
     r = PRef (length (heap w)) /\ keytable_at w r = None /\
     exists v, last_reply (calls_of (invoke c) w) = Some (Returned v) /\
               keytable_at (snd (invoke c w)) r = Some (new_keytable (hc k) v)).
Proof.
  intros Ht Hk. split.
  - unfold keytable_at in *. destruct self; try discriminate Hk.
    destruct (heap w !! l) as [[]|] eqn:Hl; try discriminate Hk. injection Hk as ->.
    destruct (invoke_store_run c w) as [Hold _].
    destruct (Hold l k Hl) as (k' & Hl' & Hkf). rewrite Hl'. exists k'.
    destruct (kept_or_filled_handle _ _ _ _ Hkf). auto.
  - intros r Hr. destruct (invoke c w) as [r' w'] eqn:E. cbn in Hr. subst r'.
    pose proof (invoke_result_run _ _ _ _ E) as H. unfold result_spec in H.
    assert (kind_of c = Wrapped) as Hkind by (destruct c; try discriminate Ht; reflexivity).
    rewrite Hkind in H. destruct H as (v & o & Hl & -> & Ho & _ & Hnew).
    specialize (Hnew _ _ Ht Hk). subst o. split; [reflexivity|]. split.
    + unfold keytable_at. rewrite lookup_ge_None_2; [reflexivity | lia].
    + exists v. unfold calls_of. rewrite E. cbn [snd]. split; [exact Hl|].
      unfold keytable_at. rewrite Ho. reflexivity.
Qed.

(** The case that the test [isinstance(column_names, str)] covers: exploding
    the column named by the str [s] is exploding the list [[s]], with the
    same remote invocations, the same result, the same world. *)
Theorem explode_string_is_singleton self s w :
  KeyTable.explode self (PStr s) w = KeyTable.explode self (PList [PStr s]) w.
Proof. reflexivity. Qed.

(** Claim C8, what the code does.  A column name that is a unicode, as are
    the names a table of Python 2 hands out, is no instance of [str]:
    [explode] sends it to the remote [explode] as it is, while the list of
    that one name is sent as a list. *)
Theorem explode_sends_a_unicode_name_bare self units w k :
  keytable_at w self = Some k ->
  callable (_jkt k) = true ->
  map fst (calls_of (KeyTable.explode self (PUnicode units)) w) =
    [RCall (_jkt k) "explode" [PUnicode units]] /\
  map fst (calls_of (KeyTable.explode self (PList [PUnicode units])) w) =
    [RCall (_jkt k) "explode" [PList [PUnicode units]]].
Proof.
  intros Hk Hc. unfold keytable_at in Hk. destruct self; try discriminate Hk.
  destruct (heap w !! l) as [[]|] eqn:Hl; try discriminate Hk. injection Hk as ->.
  unfold calls_of, KeyTable.explode, handle_py4j, KeyTable.get, KeyTable.__init__,
    bind, load, jcall, alloc, ret. cbn. rewrite Hl. cbn. rewrite Hl. cbn. rewrite Hc.
  split; destruct (remote _ _) as [[v|x] e']; cbn; rewrite drop_1; reflexivity.
Qed.

(** Claim C1, what the code does.  [import_bgen] sends to [importBgens] the
    path, the sample file, the tolerance and the number of partitions it was
    given, and [True] where the claim has [compress]: the value of the
    parameter [compress] does not reach the remote side. *)
Theorem import_bgen_sends_True self path tolerance sample_file npartitions compress w h :
  hailcontext_at w self = Some h ->
  callable (_jhc h) = true ->
  map fst (calls_of
    (HailContext.import_bgen self path tolerance sample_file npartitions compress) w) =
  [RCall (_jhc h) "importBgens"
     [jindexed_seq_args path; joption sample_file; tolerance; joption npartitions;
      PBool true]].
Proof.
  intros Hh Hc. unfold hailcontext_at in Hh.
  destruct self; try discriminate Hh.
  destruct (heap w !! l) as [[]|] eqn:Hl; try discriminate Hh. injection Hh as ->.
  unfold calls_of, HailContext.import_bgen, handle_py4j, HailContext.get,
    HailContextFields.get, VariantDataset, bind, load, jcall, alloc, ret. cbn.
  rewrite Hl. cbn. rewrite Hc.
  destruct (remote _ _) as [[v|x] e']; cbn; rewrite drop_1; reflexivity.
Qed.

(** Claim C2, what the code does.  When the remote [join] throws, [join]
    ends with the error of py4j itself: it is not translated into
    [FatalError]. *)
Theorem join_raises_the_py4j_error self right how w k kr x e' :
  keytable_at w self = Some k ->
  keytable_at w right = Some kr ->
  callable (_jkt k) = true ->
  remote (RCall (_jkt k) "join" [_jkt kr; how]) (engine w) = (Thrown x, e') ->
  fst (KeyTable.join self right how w) = Raise (Py4JJavaError x).
Proof.
  intros Hk Hr Hc He. unfold keytable_at in *.
  destruct self; try discriminate Hk. destruct right; try discriminate Hr.
  destruct (heap w !! l) as [[]|] eqn:Hl; try discriminate Hk. injection Hk as ->.
  destruct (heap w !! l0) as [[]|] eqn:Hl0; try discriminate Hr. injection Hr as ->.
  unfold KeyTable.join, KeyTable.get, bind, load, jcall, ret. cbn.
  rewrite Hl. cbn. rewrite Hl. cbn. rewrite Hl0. cbn. rewrite Hc, He. reflexivity.
Qed.

(** The decorated methods do translate: the same failure under [filter]. *)
Lemma filter_translates_the_py4j_error self condition keep w k x e' :
  keytable_at w self = Some k ->
  callable (_jkt k) = true ->
  remote (RCall (_jkt k) "filter" [condition; keep]) (engine w) = (Thrown x, e') ->
  fst (KeyTable.filter self condition keep w) = Raise (FatalError x).
Proof.
  intros Hk Hc He. unfold keytable_at in *.
  destruct self; try discriminate Hk.
  destruct (heap w !! l) as [[]|] eqn:Hl; try discriminate Hk. injection Hk as ->.
  unfold KeyTable.filter, handle_py4j, KeyTable.get, bind, load, jcall, ret. cbn.
  rewrite Hl. cbn. rewrite Hl. cbn. rewrite Hc, He. reflexivity.
Qed.

(** [import_gen] forwards its [compress]. *)
Lemma import_gen_sends_compress
    self path sample_file tolerance npartitions chromosome compress w h :
  hailcontext_at w self = Some h ->
  callable (_jhc h) = true ->
  map fst (calls_of
    (HailContext.import_gen self path sample_file tolerance npartitions chromosome
       compress) w) =
  [RCall (_jhc h) "importGens"
     [jindexed_seq_args path; sample_file; joption chromosome; joption npartitions;
      tolerance; compress]].
Proof.
  intros Hh Hc. unfold hailcontext_at in Hh.
  destruct self; try discriminate Hh.
  destruct (heap w !! l) as [[]|] eqn:Hl; try discriminate Hh. injection Hh as ->.
  unfold calls_of, HailContext.import_gen, handle_py4j, HailContext.get,
    HailContextFields.get, VariantDataset, bind, load, jcall, alloc, ret. cbn.
  rewrite Hl. cbn. rewrite Hc.
  destruct (remote _ _) as [[v|x] e']; cbn; rewrite drop_1; reflexivity.
Qed.


Lemma bind_run {A B} (m : M A) (k : A -> M B) w a w1 :
  m w = (Ok a, w1) -> bind m k w = k a w1.
Proof. intros E. unfold bind. rewrite E. reflexivity. Qed.




(** [stop] has no decorator either: a failure of [sc.stop()] is not
    translated. *)
Lemma stop_raises_the_py4j_error self w h x e' :
  hailcontext_at w self = Some h ->
  callable (sc h) = true ->
  remote (RCall (sc h) "stop" []) (engine w) = (Thrown x, e') ->
  fst (HailContext.stop self w) = Raise (Py4JJavaError x).
Proof.
  intros Hh Hc He. unfold hailcontext_at in Hh.
  destruct self; try discriminate Hh.
  destruct (heap w !! l) as [[]|] eqn:Hl; try discriminate Hh. injection Hh as ->.
  unfold HailContext.stop, HailContext.get, HailContextFields.get, bind, load, jcall, ret.
  cbn. rewrite Hl. cbn. rewrite Hc, He. reflexivity.
Qed.

End Claims.

(** ** The claims on the demo session *)

Section OnDemo.
Import Demo.

(** [import_bgen] called with [compress=False] on the demo session. *)
Lemma import_bgen_sends_True_witness :
  map fst (calls_of
    (HailContext.import_bgen (PRef 0) (PStr "data/example.bgen")
       (PFloat 4596373779694328218) PNone PNone (PBool false)) w0) =
  [RCall (PJava "jhc") "importBgens"
     [PInstance "IndexedSeq" [PList [PStr "data/example.bgen"]]; PInstance "None" [];
      PFloat 4596373779694328218; PInstance "None" []; PBool true]].
Proof.
  apply (import_bgen_sends_True (G := demo) (PRef 0) (PStr "data/example.bgen")
           (PFloat 4596373779694328218) PNone PNone (PBool false) w0 hc0);
    reflexivity.
Defined.

(** A join of an unknown type on the demo session. *)
Lemma join_raises_the_py4j_error_witness :
  fst (KeyTable.join (PRef 1) (PRef 2) (PStr "sideways") w0) =
  Raise (Py4JJavaError (PStr "unknown join type")).
Proof.
  apply (join_raises_the_py4j_error (G := demo) (PRef 1) (PRef 2) (PStr "sideways") w0
           (fresh_kt "kt1") (fresh_kt "kt2") (PStr "unknown join type") 1);
    reflexivity.
Defined.

(** [filter] on the demo session returns a new KeyTable around the handle. *)
Lemma result_by_kind_witness :
  exists v,
    last_reply (calls_of (invoke (KT_filter (PRef 1) (PStr "C1 == 5") (PBool true))) w0) =
      Some (Returned v) /\
    wraps (snd (invoke (KT_filter (PRef 1) (PStr "C1 == 5") (PBool true)) w0)) (PRef 3) v /\
    PRef 3 = PRef (length (heap w0)).
Proof.
  apply (result_by_kind (G := demo) (KT_filter (PRef 1) (PStr "C1 == 5") (PBool true)) w0
           (PRef 3) (snd (invoke (KT_filter (PRef 1) (PStr "C1 == 5") (PBool true)) w0))).
  reflexivity.
Defined.

(** Claim C3 as written fails: [count_rows] returns the number the remote
    returned and [grep] returns [None]; neither is a reference to a facade
    object. *)
Lemma count_rows_and_grep_return_no_wrapper :
  ~ returns_wrapped_handle (KT_count_rows (PRef 1)) w0 /\
  ~ returns_wrapped_handle
      (HC_grep (PRef 0) (PStr "hello") (PStr "data/file.txt") (PInt 100)) w0.
Proof.
  split; intros H.
  - destruct (H (PInt 4) _ (PInt 4) eq_refl eq_refl) as (l & o & Hr & _). discriminate Hr.
  - destruct (H PNone _ PNone eq_refl eq_refl) as (l & o & Hr & _). discriminate Hr.
Qed.

(** Reading [num_columns] on a fresh table of the demo session. *)
Lemma keytable_fields_change_only_by_cache_fill_witness :
  exists k', heap (snd (invoke (KT_num_columns (PRef 1)) w1)) !! 1 = Some (OKeyTable k') /\
             hc k' = PRef 0 /\ _jkt k' = PJava "kt1" /\
             kept_or_filled (KT_num_columns (PRef 1)) 1 (fresh_kt "kt1") k'.
Proof.
  apply (proj1 (keytable_fields_change_only_by_cache_fill (G := demo)
                  (KT_num_columns (PRef 1)) w1) 1 (fresh_kt "kt1")).
  reflexivity.
Defined.

(** Claim C4 as written fails: reading [num_columns] writes the field
    [_num_columns] of the table. *)
Lemma num_columns_writes_its_cache :
  ~ writes_no_field (KT_num_columns (PRef 1)) w1.
Proof.
  intros H. specialize (H 1 (fresh_kt "kt1") eq_refl). vm_compute in H. discriminate H.
Qed.

(** [to_dataframe] with both flags on the demo session: three invocations. *)
Lemma remote_calls_of_an_invocation_witness :
  trace (snd (invoke (KT_to_dataframe (PRef 1) (PBool true) (PBool true)) w0)) =
    trace w0 ++ calls_of (invoke (KT_to_dataframe (PRef 1) (PBool true) (PBool true))) w0 /\
  length (calls_of (invoke (KT_to_dataframe (PRef 1) (PBool true) (PBool true))) w0) = 3.
Proof.
  apply (remote_calls_of_an_invocation (G := demo)
           (KT_to_dataframe (PRef 1) (PBool true) (PBool true)) w0 (PRef 3)).
  reflexivity.
Defined.

(** Claim C5 as written fails: [to_dataframe(True, True)] chains three
    remote invocations, and [key_by] on a fresh table makes two. *)
Lemma to_dataframe_and_key_by_make_several_calls :
  ~ single_remote_call (KT_to_dataframe (PRef 1) (PBool true) (PBool true)) w0 /\
  ~ single_remote_call (KT_key_by (PRef 1) (PList [PStr "SEX"])) w0.
Proof.
  split; intros H; specialize (H _ _ eq_refl); vm_compute in H; discriminate H.
Qed.

(** [key_by] on a fresh table of the demo session. *)
Lemma transformation_keeps_receiver_witness :
  (exists k', keytable_at (snd (invoke (KT_key_by (PRef 1) (PList [PStr "SEX"])) w0))
                (PRef 1) = Some k' /\
     hc k' = PRef 0 /\ _jkt k' = PJava "kt1" /\
     (k' = fresh_kt "kt1" \/
      exists p v, reads_property (KT_key_by (PRef 1) (PList [PStr "SEX"])) =
                    Some (PRef 1, p) /\
                  cache p (fresh_kt "kt1") = PNone /\ k' = set_cache p v (fresh_kt "kt1"))) /\
  (forall r, fst (invoke (KT_key_by (PRef 1) (PList [PStr "SEX"])) w0) = Ok r ->
     r = PRef 3 /\ keytable_at w0 r = None /\
     exists v,
       last_reply (calls_of (invoke (KT_key_by (PRef 1) (PList [PStr "SEX"]))) w0) =
         Some (Returned v) /\
       keytable_at (snd (invoke (KT_key_by (PRef 1) (PList [PStr "SEX"])) w0)) r =
         Some (new_keytable (PRef 0) v)).
Proof.
  apply (transformation_keeps_receiver (G := demo)
           (KT_key_by (PRef 1) (PList [PStr "SEX"])) (PRef 1) w0 (fresh_kt "kt1"));
    reflexivity.
Defined.

(** Claim C6 as written fails: after [key_by] the receiver has its field
    [_column_names] filled, which was [None] before. *)
Lemma key_by_fills_a_cache_of_the_receiver :
  ~ receiver_unchanged (KT_key_by (PRef 1) (PList [PStr "SEX"])) w0.
Proof.
  intros H. specialize (H (PRef 1) (fresh_kt "kt1") eq_refl eq_refl).
  vm_compute in H. discriminate H.
Qed.


(** [num_columns] on the demo session once the JVM answers. *)
Lemma properties_memoized_witness :
  length (calls_of (read_property NumColumns (PRef 1)) w1) <= 1 /\
  forall w2, rtc step (snd (read_property NumColumns (PRef 1) w1)) w2 ->
             read_property NumColumns (PRef 1) w2 = (Ok (PInt 8), w2).
Proof.
  apply (properties_memoized (G := demo) NumColumns (PRef 1) w1 (PInt 8)
           (snd (read_property NumColumns (PRef 1) w1))).
  - reflexivity.
  - intros _. discriminate.
Defined.

(** Claim C9 as written fails: a read whose remote call throws caches
    nothing, and the next read of the same object invokes the accessor a
    second time. *)
Lemma failed_read_invokes_the_accessor_again :
  ~ accessor_at_most_once NumColumns (PRef 1) w0.
Proof.
  unfold accessor_at_most_once.
  assert (accessor_calls_of_two_reads NumColumns (PRef 1) w0 = 2) as -> by reflexivity.
  lia.
Qed.

(** [explode(u'c2')] and [explode([u'c2'])] on the demo session. *)
Lemma explode_sends_a_unicode_name_bare_witness :
  map fst (calls_of (KeyTable.explode (PRef 1) (PUnicode (units_of "c2"))) w0) =
    [RCall (PJava "kt1") "explode" [PUnicode (units_of "c2")]] /\
  map fst (calls_of (KeyTable.explode (PRef 1) (PList [PUnicode (units_of "c2")])) w0) =
    [RCall (PJava "kt1") "explode" [PList [PUnicode (units_of "c2")]]].
Proof.
  apply (explode_sends_a_unicode_name_bare (G := demo) (PRef 1) (units_of "c2") w0
           (fresh_kt "kt1")); reflexivity.
Defined.

End OnDemo.

(** ** Further properties of the two classes *)

Section LocalErrors.

(** The helpers of Python that the methods use raise nothing but
    [TypeError] and, where a str meets a unicode, [UnicodeDecodeError]:
    never an error of the bridge. *)

Lemma decode_ascii_raises s e : decode_ascii s = Raise e -> e = TypeError \/ e = UnicodeDecodeError.
Proof. unfold decode_ascii. destruct (is_ascii s); [discriminate|]. right. congruence. Qed.

Lemma py_list_raises v e : py_list v = Raise e -> e = TypeError \/ e = UnicodeDecodeError.
Proof. destruct v; cbn; try discriminate; left; congruence. Qed.

Lemma py_in_raises k c e : py_in k c = Raise e -> e = TypeError \/ e = UnicodeDecodeError.
Proof.
  destruct c; cbn; try (left; congruence); try discriminate.
  - destruct k; try (left; congruence); try discriminate.
    destruct (decode_ascii s) eqn:E; [discriminate|].
    intros H. apply decode_ascii_raises in E. congruence.
  - destruct k; try (left; congruence); try discriminate.
    destruct (decode_ascii s) eqn:E; [discriminate|].
    intros H. apply decode_ascii_raises in E. congruence.
  - destruct (hashable k); [discriminate | left; congruence].
Qed.

Lemma py_iter_raises v e : py_iter v = Raise e -> e = TypeError \/ e = UnicodeDecodeError.
Proof.
  unfold py_iter. destruct (py_list v) as [a|e'] eqn:E.
  - destruct a; try discriminate; left; congruence.
  - apply py_list_raises in E. congruence.
Qed.

Lemma keep_members_raises ks c e : keep_members ks c = Raise e -> e = TypeError \/ e = UnicodeDecodeError.
Proof.
  induction ks as [|k ks IH]; cbn; [discriminate|].
  destruct (py_in k c) as [b|e'] eqn:E.
  - destruct (keep_members ks c); [discriminate|]. intros H. apply IH. congruence.
  - apply py_in_raises in E. congruence.
Qed.

Lemma join_strings_raises sep items e : join_strings sep items = Raise e -> e = TypeError \/ e = UnicodeDecodeError.
Proof.
  induction items as [|i items IH]; cbn; [discriminate|].
  destruct i; try (left; congruence). destruct items as [|j items']; [discriminate|].
  destruct (join_strings sep (j :: items')); [discriminate|].
  intros H. apply IH. congruence.
Qed.

Lemma units_of_items_raises items e : units_of_items items = Raise e -> e = TypeError \/ e = UnicodeDecodeError.
Proof.
  induction items as [|i items IH]; cbn; [discriminate|].
  destruct i; try (left; congruence).
  - destruct (decode_ascii s) eqn:E.
    + destruct (units_of_items items); [discriminate|]. intros H. apply IH. congruence.
    + apply decode_ascii_raises in E. congruence.
  - destruct (units_of_items items); [discriminate|]. intros H. apply IH. congruence.
Qed.

Lemma str_join_raises sep items e : str_join sep items = Raise e -> e = TypeError \/ e = UnicodeDecodeError.
Proof.
  unfold str_join. destruct (first_non_str items) as [i|].
  - destruct i; try (left; congruence).
    destruct (decode_ascii sep) eqn:E; [|apply decode_ascii_raises in E; congruence].
    destruct (units_of_items items) eqn:E'; [discriminate|].
    apply units_of_items_raises in E'. congruence.
  - destruct (join_strings sep items) eqn:E; [discriminate|].
    apply join_strings_raises in E. congruence.
Qed.

Lemma join_if_list_raises sep v e : join_if_list sep v = Raise e -> e = TypeError \/ e = UnicodeDecodeError.
Proof. destruct v; cbn; try discriminate. apply str_join_raises. Qed.

End LocalErrors.

Ltac local_raises :=
  repeat match goal with
  | H : py_list _ = Raise _ |- _ => apply py_list_raises in H; destruct H
  | H : py_iter _ = Raise _ |- _ => apply py_iter_raises in H; destruct H
  | H : keep_members _ _ = Raise _ |- _ => apply keep_members_raises in H; destruct H
  | H : join_if_list _ _ = Raise _ |- _ => apply join_if_list_raises in H; destruct H
  end.

Section Further.
Context `{G : Gateway}.

(** How an invocation can fail: every remote invocation but the last has
    returned; a throw of the JVM ends the method with the error of its kind;
    and the two errors of the bridge come from nothing but a throw. *)
Lemma invoke_failure c w :
  wp (invoke c) (fun r w' =>
    let new := drop (length (trace w)) (trace w') in
    Forall (fun cr => is_Returned (snd cr) = true) (removelast new) /\
    (forall x, last_reply new = Some (Thrown x) -> r = Raise (failure_of c x)) /\
    (forall x, r = Raise (Py4JJavaError x) ->
       decorated c = false /\ last_reply new = Some (Thrown x)) /\
    (forall x, r = Raise (FatalError x) ->
       decorated c = true /\ last_reply new = Some (Thrown x))) w.
Proof.
  destruct w as [e t h].
  destruct c; wp_run.
  all: cbv zeta; cbn [trace].
  all: rewrite ?drop_own, ?drop_1, ?drop_2, ?drop_3, ?drop_4.
  all: unfold last_reply, failure_of; cbn.
  all: repeat split; try (repeat constructor; fail); intros; local_raises;
    simplify_eq; reflexivity.
Qed.

Lemma invoke_alloc c w :
  wp (invoke c) (fun r w' =>
    (is_Ok r = true ->
     length (heap w') = length (heap w) + (if allocates c then 1 else 0)) /\
    (is_Ok r = false ->
     length (heap w') = length (heap w) \/
     (exists self expand flatten,
        c = KT_to_pandas self expand flatten /\
        length (heap w') = S (length (heap w))))) w.
Proof.
  destruct w as [e t h].
  destruct c; wp_run.
  all: cbn [heap is_Ok allocates kind_of andb];
    rewrite ?length_app, ?length_insert; cbn [length].
  all: split; intros Hok; try discriminate Hok.
  all: first [lia | left; lia | right; eexists _, _, _; split; [reflexivity | lia]].
Qed.

Lemma invoke_context c w :
  wp (invoke c) (fun r w' =>
    forall l h0, heap w !! l = Some (OHailContext h0) ->
      heap w' !! l = Some (OHailContext h0) \/
      (c = HC_stop (PRef l) /\ r = Ok PNone /\
       heap w' !! l = Some (OHailContext (HailContextFields.set_sc PNone h0)))) w.
Proof.
  destruct w as [e t h].
  destruct c; wp_run.
  all: cbn [heap]; intros l' h' Hl'.
  all: try (match goal with
            | |- context [<[?i:=OHailContext _]> _] =>
                destruct (decide (l' = i)) as [->|Hne];
                [ right; split; [reflexivity|]; split; [reflexivity|];
                  rewrite list_lookup_insert_eq by (eapply lookup_lt_Some; eassumption);
                  congruence
                | left; rewrite list_lookup_insert_ne by congruence; exact Hl' ]
            end; fail).
  all: left;
    rewrite ?lookup_app_l by (rewrite ?length_insert; eapply lookup_lt_Some; exact Hl');
    rewrite ?list_lookup_insert_ne by congruence; exact Hl'.
Qed.

(** *** Failure *)

Lemma last_of_all_but_last {A} (P : A -> Prop) (l : list A) a :
  Forall P (removelast l) -> In a l -> ~ P a -> last l = Some a.
Proof.
  induction l as [|b l IH]; intros HF Hin Hn; [destruct Hin|].
  destruct l as [|b' l'].
  - destruct Hin as [->|[]]. reflexivity.
  - change (removelast (b :: b' :: l')) with (b :: removelast (b' :: l')) in HF.
    inversion HF as [|? ? Hb HF']; subst.
    destruct Hin as [->|Hin]; [contradiction|].
    change (last (b :: b' :: l')) with (last (b' :: l')). apply IH; assumption.
Qed.

(** Property X1.  A throw of the JVM ends the invocation: a remote
    invocation that threw [x] is the last one the method made, and the method
    raises the error of its kind with [x] as payload, [FatalError] when it is
    decorated and the error of py4j when it is not. *)
Theorem a_throw_ends_the_invocation c w cl x :
  In (cl, Thrown x) (calls_of (invoke c) w) ->
  last (calls_of (invoke c) w) = Some (cl, Thrown x) /\
  fst (invoke c w) = Raise (failure_of c x).
Proof.
  intros Hin. destruct (invoke_failure c w) as (HF & Hlast & _).
  fold (calls_of (invoke c) w) in HF, Hlast.
  assert (last (calls_of (invoke c) w) = Some (cl, Thrown x)) as E.
  { eapply last_of_all_but_last; [exact HF | exact Hin | cbn; discriminate]. }
  split; [exact E|]. apply Hlast. unfold last_reply. rewrite E. reflexivity.
Qed.

(** Property X3.  A [FatalError] comes from nothing but a throw of the JVM
    under a decorated method, and its payload is what the last remote
    invocation threw. *)
Theorem FatalError_carries_the_remote_error c w x :
  fst (invoke c w) = Raise (FatalError x) ->
  decorated c = true /\ last_reply (calls_of (invoke c) w) = Some (Thrown x).
Proof.
  intros E. destruct (invoke_failure c w) as (_ & _ & _ & Hf). exact (Hf x E).
Qed.

(** *** The store *)

(** Property X4.  An invocation that returns has created one local object
    when its method wraps a handle (or is [to_pandas]) and none otherwise; an
    invocation that raises has created none, [to_pandas] apart, whose data
    frame exists before [toPandas] is invoked. *)
Theorem store_grows_by_the_returned_object c w r w' :
  invoke c w = (r, w') ->
  (is_Ok r = true ->
   length (heap w') = length (heap w) + (if allocates c then 1 else 0)) /\
  (is_Ok r = false ->
   (forall self expand flatten, c <> KT_to_pandas self expand flatten) ->
   length (heap w') = length (heap w)).
Proof.
  intros E. pose proof (invoke_alloc c w) as H. unfold wp in H. rewrite E in H.
  cbn [fst snd] in H. destruct H as [Hok Hno]. split; [exact Hok|].
  intros Hr Hc. destruct (Hno Hr) as [H|(s & e & f & -> & _)]; [exact H|].
  destruct (Hc s e f eq_refl).
Qed.

(** Property X5.  A HailContext of the store is changed by nothing but a
    [stop] on it that returns, which sets its field [sc] to [None]. *)
Theorem contexts_change_only_by_stop c w l h :
  heap w !! l = Some (OHailContext h) ->
  heap (snd (invoke c w)) !! l = Some (OHailContext h) \/
  (c = HC_stop (PRef l) /\ fst (invoke c w) = Ok PNone /\
   heap (snd (invoke c w)) !! l =
     Some (OHailContext (HailContextFields.set_sc PNone h))).
Proof. intros Hl. exact (invoke_context c w l h Hl). Qed.

(** Property X6.  However an invocation ends, it only appends to what
    crossed the bridge, and no more invocations than the method makes when
    it returns. *)
Theorem invocation_appends_at_most_expected c w :
  trace (snd (invoke c w)) = trace w ++ calls_of (invoke c) w /\
  length (calls_of (invoke c) w) <= expected_calls c w.
Proof.
  destruct (invoke_count c w) as (Ht & Hle & _). exact (conj Ht Hle).
Qed.

(** *** stop *)

Lemma stop_on_stopped self w h :
  hailcontext_at w self = Some h -> sc h = PNone ->
  HailContext.stop self w = (Raise (AttributeError "stop"), w).
Proof.
  intros Hh Hs. unfold hailcontext_at in Hh. destruct self; try discriminate Hh.
  destruct (heap w !! l) as [[]|] eqn:Hl; try discriminate Hh. injection Hh as ->.
  unfold HailContext.stop, HailContext.get, HailContextFields.get, bind, load, jcall, ret.
  cbn. rewrite Hl. cbn. rewrite Hs. reflexivity.
Qed.

Lemma later_stays_stopped self w w' h :
  rtc step w w' -> hailcontext_at w self = Some h -> sc h = PNone ->
  exists h', hailcontext_at w' self = Some h' /\ sc h' = PNone.
Proof.
  intros Hs. revert h. induction Hs as [w|w w1 w2 H1 H2 IH]; intros h Hh Hsc.
  - exists h. auto.
  - assert (exists h1, hailcontext_at w1 self = Some h1 /\ sc h1 = PNone) as (h1 & Hh1 & Hs1).
    { destruct H1 as [c w|w e t]; [|exists h; auto].
      unfold hailcontext_at in *. destruct self; try discriminate Hh.
      destruct (heap w !! l) as [[]|] eqn:Hl; try discriminate Hh. injection Hh as ->.
      destruct (invoke_context c w l h Hl) as [E|(_ & _ & E)]; rewrite E; eauto. }
    exact (IH h1 Hh1 Hs1).
Qed.

(** Property X7.  After a [stop] that returned, the context has [sc = None],
    and every later [stop] on it, whatever was invoked in between, raises
    [AttributeError] without reaching the other side. *)
Theorem stop_cannot_be_repeated self w h r w1 :
  hailcontext_at w self = Some h ->
  HailContext.stop self w = (Ok r, w1) ->
  hailcontext_at w1 self = Some (HailContextFields.set_sc PNone h) /\
  forall w2, rtc step w1 w2 ->
    HailContext.stop self w2 = (Raise (AttributeError "stop"), w2).
Proof.
  intros Hh E.
  assert (hailcontext_at w1 self = Some (HailContextFields.set_sc PNone h)) as H1.
  { unfold hailcontext_at in *. destruct self; try discriminate Hh.
    destruct (heap w !! l) as [[]|] eqn:Hl; try discriminate Hh. injection Hh as ->.
    revert E. unfold HailContext.stop, HailContext.get, HailContextFields.get,
      HailContextFields.set, bind, load, store, jcall, ret. cbn. rewrite Hl. cbn.
    destruct (callable (sc h)); [|discriminate].
    destruct (remote _ _) as [[v|x] e']; cbn; [|discriminate].
    rewrite Hl. cbn. intros E. injection E as _ <-. cbn.
    rewrite list_lookup_insert_eq by (eapply lookup_lt_Some; exact Hl). reflexivity. }
  split; [exact H1|]. intros w2 Hs.
  destruct (later_stays_stopped self _ _ _ Hs H1 eq_refl) as (h2 & Hh2 & Hs2).
  exact (stop_on_stopped self w2 h2 Hh2 Hs2).
Qed.

(** *** The properties *)

Lemma read_failure p self w :
  wp (read_property p self) (fun r w' =>
    forall e, r = Raise e -> e <> AssertionError -> heap w' = heap w) w.
Proof.
  destruct w as [e t h].
  destruct p; wp_run; cbn [heap]; intros ? He Hne; try discriminate He;
    try reflexivity; injection He as <-; try congruence.
  all: match goal with
       | H : keytable_at _ (PRef ?l) = None, H' : ?h !! ?l = Some _ |- _ =>
           exfalso; unfold keytable_at in H; cbn [heap] in H;
           rewrite list_lookup_insert_eq in H by (eapply lookup_lt_Some; exact H');
           discriminate H
       end.
Qed.

(** Property X8.  A read of a property that raises anything but the
    assertion error of [schema] leaves the store as it was: nothing is
    cached, so the next read asks the remote table again. *)
Theorem failed_read_caches_nothing p self w e w1 :
  read_property p self w = (Raise e, w1) -> e <> AssertionError ->
  heap w1 = heap w.
Proof.
  intros E Hne. pose proof (read_failure p self w) as H. unfold wp in H.
  rewrite E in H. exact (H e eq_refl Hne).
Qed.

(** Property X9.  [schema] stores the converted signature before it asserts
    that it is a [TStruct]: when it is not, the first read raises
    [AssertionError], and every later read returns the stored value without
    any check. *)
Theorem schema_assertion_guards_only_the_first_read self w k s e' :
  keytable_at w self = Some k ->
  _schema k = PNone ->
  callable (_jkt k) = true ->
  remote (RCall (_jkt k) "signature" []) (engine w) = (Returned s, e') ->
  isinstance_TStruct (Type_from_java s) = false ->
  Type_from_java s <> PNone ->
  fst (KeyTable.schema self w) = Raise AssertionError /\
  forall w2, rtc step (snd (KeyTable.schema self w)) w2 ->
             KeyTable.schema self w2 = (Ok (Type_from_java s), w2).
Proof.
  intros Hk Hs Hc Hr Ht Hn.
  assert (fst (KeyTable.schema self w) = Raise AssertionError /\
          keytable_at (snd (KeyTable.schema self w)) self =
            Some (KeyTable.set_schema (Type_from_java s) k)) as [E1 H1].
  { unfold keytable_at in *. destruct self; try discriminate Hk.
    destruct (heap w !! l) as [[]|] eqn:Hl; try discriminate Hk. injection Hk as ->.
    unfold KeyTable.schema, KeyTable.get, KeyTable.set, bind, load, store,
      jcall, ret, raise. cbn. rewrite Hl. cbn. rewrite Hs. cbn. rewrite Hl. cbn.
    rewrite Hc, Hr. cbn. rewrite Hl. cbn.
    rewrite list_lookup_insert_eq by (eapply lookup_lt_Some; exact Hl). cbn.
    rewrite Ht. cbn.
    rewrite list_lookup_insert_eq by (eapply lookup_lt_Some; exact Hl). auto. }
  split; [exact E1|]. intros w2 Hlater.
  destruct (later_keeps_cache Schema self _ _ _ Hlater H1 Hn) as (k2 & Hk2 & E2).
  change (KeyTable.schema self w2) with (read_property Schema self w2).
  rewrite (read_cached Schema self w2 k2 Hk2) by (rewrite E2; exact Hn).
  rewrite E2. reflexivity.
Qed.

(** *** Lists of expressions *)

Lemma join_strings_joined sep items :
  join_strings sep (PStr <$> items) = Ok (joined sep items).
Proof.
  induction items as [|s items IH]; [reflexivity|].
  destruct items as [|s' items']; [reflexivity|].
  change (PStr <$> s :: s' :: items') with (PStr s :: (PStr <$> s' :: items')).
  change (join_strings sep (PStr s :: (PStr <$> s' :: items')))
    with (match join_strings sep (PStr <$> s' :: items') with
          | Ok t => Ok (String.append s (String.append sep t))
          | Raise e => Raise e
          end).
  rewrite IH. reflexivity.
Qed.

Lemma first_non_str_of_strs items : first_non_str (PStr <$> items) = None.
Proof. induction items as [|s items IH]; [reflexivity | exact IH]. Qed.

Lemma str_join_joined sep items :
  str_join sep (PStr <$> items) = Ok (PStr (joined sep items)).
Proof.
  unfold str_join. rewrite first_non_str_of_strs, join_strings_joined. reflexivity.
Qed.

Lemma units_of_items_non_string items v :
  In v items -> isinstance_basestring v = false ->
  Forall (fun i => forall s, i = PStr s -> is_ascii s = true) items ->
  units_of_items items = Raise TypeError.
Proof.
  induction items as [|i items IH]; intros Hin Hv Ha; [destruct Hin|].
  inversion Ha as [|? ? Hi Ha']; subst.
  destruct Hin as [->|Hin].
  - destruct v; try discriminate Hv; reflexivity.
  - specialize (IH Hin Hv Ha'). cbn [units_of_items].
    destruct i; try reflexivity.
    + unfold decode_ascii. rewrite (Hi s eq_refl). rewrite IH. reflexivity.
    + rewrite IH. reflexivity.
Qed.

Lemma str_join_non_string sep items v :
  is_ascii sep = true ->
  In v items -> isinstance_basestring v = false ->
  Forall (fun i => isinstance_unicode i = false) items \/
  Forall (fun i => forall s, i = PStr s -> is_ascii s = true) items ->
  str_join sep items = Raise TypeError.
Proof.
  intros Hsep Hin Hv Hitems. unfold str_join.
  destruct (first_non_str items) as [i|] eqn:E.
  - apply List.find_some in E as [Hi Hn].
    destruct i; try reflexivity; try discriminate Hn.
    destruct Hitems as [Hu|Ha].
    + rewrite List.Forall_forall in Hu. specialize (Hu _ Hi). discriminate Hu.
    + unfold decode_ascii. rewrite Hsep.
      rewrite (units_of_items_non_string items v Hin Hv Ha). reflexivity.
  - pose proof (List.find_none _ _ E v Hin) as Hn. cbn in Hn.
    destruct v; try discriminate Hv; discriminate Hn.
Qed.

(** Property X10.  [annotate] on a list of expressions is [annotate] on the
    one string made of them with "," in between. *)
Theorem annotate_joins_a_list_with_commas self exprs w :
  KeyTable.annotate self (PList (PStr <$> exprs)) w =
  KeyTable.annotate self (PStr (joined "," exprs)) w.
Proof.
  unfold KeyTable.annotate, handle_py4j, bind, lift, join_if_list.
  rewrite str_join_joined. reflexivity.
Qed.

(** Property X11.  [aggregate_by_key] on two lists is [aggregate_by_key] on
    two strings: the key expressions joined with "," and the aggregations
    joined with ", ". *)
Theorem aggregate_by_key_joins_its_lists self key_exprs agg_exprs w :
  KeyTable.aggregate_by_key self (PList (PStr <$> key_exprs)) (PList (PStr <$> agg_exprs)) w =
  KeyTable.aggregate_by_key self (PStr (joined "," key_exprs))
    (PStr (joined ", " agg_exprs)) w.
Proof.
  unfold KeyTable.aggregate_by_key, handle_py4j, bind, lift, join_if_list.
  rewrite !str_join_joined. reflexivity.
Qed.

(** Property X12.  [annotate] on a list that holds something that is
    neither a str nor a unicode raises [TypeError] and leaves the world as it
    is: no remote invocation is made.  (The list has no unicode, or its strs
    are ASCII: a str that cannot be decoded, met by a unicode join before
    the item in question, raises the error of the decoding instead.) *)
Theorem annotate_rejects_a_list_with_a_non_string self items v w :
  In v items -> isinstance_basestring v = false ->
  Forall (fun i => isinstance_unicode i = false) items \/
  Forall (fun i => forall s, i = PStr s -> is_ascii s = true) items ->
  KeyTable.annotate self (PList items) w = (Raise TypeError, w).
Proof.
  intros Hin Hv Hitems. unfold KeyTable.annotate, handle_py4j, bind, lift, join_if_list.
  rewrite (str_join_non_string "," items v eq_refl Hin Hv Hitems). reflexivity.
Qed.

(** *** Configurations *)

(** Property X13.  [import_keytable] with a configuration that is false
    ([None], for one) is [import_keytable] with [TextTableConfig()]. *)
Theorem import_keytable_defaults_a_false_config self path key_names npartitions config w :
  py_truthy config = false ->
  HailContext.import_keytable self path key_names npartitions config w =
  HailContext.import_keytable self path key_names npartitions HailContext.TextTableConfig w.
Proof. intros H. unfold HailContext.import_keytable. rewrite H. reflexivity. Qed.

(** Property X14.  [import_annotations_table] has no such default: given
    [None], or anything without the method [_to_java], it raises
    [AttributeError] and makes no remote invocation. *)
Theorem import_annotations_table_needs_a_config
    self path variant_expr code npartitions config w h :
  hailcontext_at w self = Some h ->
  callable config = false ->
  HailContext.import_annotations_table self path variant_expr code npartitions config w =
  (Raise (AttributeError "_to_java"), w).
Proof.
  intros Hh Hc. unfold hailcontext_at in Hh. destruct self; try discriminate Hh.
  destruct (heap w !! l) as [[]|] eqn:Hl; try discriminate Hh. injection Hh as ->.
  unfold HailContext.import_annotations_table, handle_py4j, HailContext.get,
    HailContextFields.get, bind, load, ret. cbn. rewrite Hl. cbn.
  destruct config; try discriminate Hc; reflexivity.
Qed.

(** *** key_by and select *)

Lemma after_a_read p self l w k v wk :
  self = PRef l -> heap w !! l = Some (OKeyTable k) ->
  read_property p self w = (Ok v, wk) ->
  trace wk = trace w ++ calls_of (read_property p self) w /\
  exists k', heap wk !! l = Some (OKeyTable k') /\ hc k' = hc k /\ _jkt k' = _jkt k.
Proof.
  intros -> Hl E. rewrite read_property_invoke in *.
  destruct (invoke_count_run _ _ _ _ E) as (Ht & _). split; [exact Ht|].
  pose proof (invoke_store_run (property_call p (PRef l)) w) as [Hold _].
  rewrite E in Hold. cbn [snd] in Hold.
  destruct (Hold _ _ Hl) as (k' & Hl' & Hkf). exists k'.
  destruct (kept_or_filled_handle _ _ _ _ Hkf). auto.
Qed.

(** Property X15.  [key_by] is a remote [select] of all the columns of the
    table, in their order (what the property [column_names] yields), with the
    given key names passed as they are. *)
Theorem key_by_selects_all_columns self key_names w k cols wc :
  keytable_at w self = Some k ->
  callable (_jkt k) = true ->
  KeyTable.column_names self w = (Ok cols, wc) ->
  map fst (calls_of (KeyTable.key_by self key_names) w) =
  map fst (calls_of (KeyTable.column_names self) w) ++
  [RCall (_jkt k) "select" [cols; key_names]].
Proof.
  intros Hk Hc E. unfold keytable_at in Hk. destruct self; try discriminate Hk.
  destruct (heap w !! l) as [[]|] eqn:Hl; try discriminate Hk. injection Hk as ->.
  destruct (after_a_read ColumnNames (PRef l) l w k cols wc eq_refl Hl E)
    as (Ht & k' & Hl' & _ & Hj).
  cbn [read_property] in Ht.
  unfold calls_of at 1. unfold KeyTable.key_by, handle_py4j.
  cbv [bind KeyTable.get load ret raise]. rewrite Hl. cbn [heap trace engine].
  rewrite Hl. cbn [heap trace engine]. rewrite E.
  cbv [jcall KeyTable.__init__ alloc]. rewrite Hc.
  unfold calls_of in *. rewrite E in *. cbn [snd] in *.
  destruct (remote _ _) as [[v|x] e']; cbn [trace snd].
  all: rewrite Ht at 1; rewrite <- app_assoc, drop_app_length, map_app; reflexivity.
Qed.

Lemma select_run self cols w k ks kept wk :
  keytable_at w self = Some k ->
  callable (_jkt k) = true ->
  KeyTable.key_names self w = (Ok (PList ks), wk) ->
  keep_members ks cols = Ok kept ->
  map fst (calls_of (KeyTable.select self cols) w) =
  map fst (calls_of (KeyTable.key_names self) w) ++
  [RCall (_jkt k) "select" [cols; PList kept]].
Proof.
  intros Hk Hc E Hkept. unfold keytable_at in Hk. destruct self; try discriminate Hk.
  destruct (heap w !! l) as [[]|] eqn:Hl; try discriminate Hk. injection Hk as ->.
  destruct (after_a_read KeyNames (PRef l) l w k (PList ks) wk eq_refl Hl E)
    as (Ht & k' & Hl' & _ & Hj).
  cbn [read_property] in Ht.
  unfold calls_of at 1. unfold KeyTable.select, handle_py4j.
  rewrite (bind_run _ _ _ _ _ E).
  cbv [bind lift KeyTable.get load jcall KeyTable.__init__ alloc ret raise py_iter py_list].
  rewrite Hkept.
  repeat (rewrite Hl'; cbn [heap trace engine]). rewrite Hj, Hc.
  unfold calls_of in *. rewrite E in *. cbn [snd] in *.
  destruct (remote _ _) as [[v|x] e']; cbn [trace snd].
  all: rewrite Ht at 1; rewrite <- app_assoc, drop_app_length, map_app; reflexivity.
Qed.


(** *** Names of Python 2

    The names a table hands out are unicode, the names written in a script
    are strs. *)

Lemma units_eqb_eq x y : units_eqb x y = true <-> x = y.
Proof.
  revert y. induction x as [|a x IH]; intros [|b y]; cbn; try (split; (reflexivity || discriminate)).
  rewrite andb_true_iff, N.eqb_eq, IH. split; [intros [-> ->]; reflexivity|].
  intros E. injection E as -> ->. auto.
Qed.

Lemma units_of_inj a b : units_of a = units_of b -> a = b.
Proof.
  unfold units_of. intros E.
  rewrite <- (string_of_list_ascii_of_string a), <- (string_of_list_ascii_of_string b).
  f_equal. revert E. generalize (list_ascii_of_string a) (list_ascii_of_string b).
  induction l as [|x l IH]; intros [|y l']; cbn; intros E; try discriminate E;
    [reflexivity|].
  injection E as Exy El. f_equal; [|exact (IH _ El)].
  rewrite <- (ascii_N_embedding x), <- (ascii_N_embedding y). f_equal. exact Exy.
Qed.

Lemma str_equals_unicode c n :
  is_ascii c = true ->
  py_eq (PStr c) (PUnicode (units_of n)) = bool_decide (c = n).
Proof.
  intros Hc. change (py_eq (PStr c) (PUnicode (units_of n)))
    with (is_ascii c && units_eqb (units_of c) (units_of n)).
  rewrite Hc. cbn [andb]. apply eq_true_iff_eq.
  rewrite units_eqb_eq, bool_decide_eq_true. split; [apply units_of_inj | intros ->; reflexivity].
Qed.

Lemma occurs_in_str_names n cols :
  Forall (fun c => is_ascii c = true) cols ->
  existsb (fun x => py_eq x (PUnicode (units_of n))) (PStr <$> cols) = bool_decide (n ∈ cols).
Proof.
  induction 1 as [|c cols Hc _ IH]; [reflexivity|]. cbn [fmap list_fmap existsb].
  rewrite IH, (str_equals_unicode c n Hc). apply eq_true_iff_eq.
  rewrite orb_true_iff, !bool_decide_eq_true, elem_of_cons. intuition congruence.
Qed.

Lemma keep_members_unicode_names names cols :
  Forall (fun c => is_ascii c = true) cols ->
  keep_members ((fun n => PUnicode (units_of n)) <$> names) (PList (PStr <$> cols)) =
  Ok ((fun n => PUnicode (units_of n)) <$> filter (fun n => n ∈ cols) names).
Proof.
  intros Hcols. induction names as [|n names IH]; [reflexivity|].
  cbn [fmap list_fmap keep_members py_in].
  fold (@fmap list _ _ _ (fun n => PUnicode (units_of n)) names).
  rewrite IH, (occurs_in_str_names n cols Hcols). rewrite filter_cons.
  destruct (decide (n ∈ cols)) as [Hin|Hin].
  - rewrite bool_decide_eq_true_2 by exact Hin. reflexivity.
  - rewrite bool_decide_eq_false_2 by exact Hin. reflexivity.
Qed.

(** Property X20.  With the key names of the table unicode, as a table of
    Python 2 hands them out, and the columns given as ASCII strs, [select]
    sends the keys whose characters are those of one of the columns, in the
    order of the keys and as the unicode they are. *)
Theorem select_matches_unicode_keys_with_str_columns self cols w k names wk :
  keytable_at w self = Some k ->
  callable (_jkt k) = true ->
  Forall (fun c => is_ascii c = true) cols ->
  KeyTable.key_names self w =
    (Ok (PList ((fun n => PUnicode (units_of n)) <$> names)), wk) ->
  map fst (calls_of (KeyTable.select self (PList (PStr <$> cols))) w) =
  map fst (calls_of (KeyTable.key_names self) w) ++
  [RCall (_jkt k) "select"
     [PList (PStr <$> cols);
      PList ((fun n => PUnicode (units_of n)) <$> filter (fun n => n ∈ cols) names)]].
Proof.
  intros Hk Hc Hcols E.
  exact (select_run _ _ _ _ _ _ _ Hk Hc E (keep_members_unicode_names names cols Hcols)).
Qed.

(** *** to_dataframe *)

Lemma to_dataframe_run self expand flatten w :
  wp (KeyTable.to_dataframe self expand flatten) (fun r w' =>
    forall df, r = Ok df ->
    forall k, keytable_at w self = Some k ->
    let new := drop (length (trace w)) (trace w') in
    map (fun cr => call_name (fst cr)) new =
      (if py_truthy expand then ["expandTypes"] else []) ++
      (if py_truthy flatten then ["flatten"] else []) ++ ["toDF"] /\
    chained (_jkt k) new /\
    trace w' = trace w ++ new /\
    exists jdf h,
      last_reply new = Some (Returned jdf) /\
      hailcontext_at w (hc k) = Some h /\
      df = PRef (length (heap w)) /\
      heap w' = heap w ++ [ODataFrame jdf (_sql_context h)]) w.
Proof.
  destruct w as [e t h].
  wp_run.
  all: intros ? Ha; try discriminate Ha; injection Ha as <-.
  all: intros k0 Hk0; unfold keytable_at in Hk0; cbn [heap] in Hk0; use_lookups;
    simplify_eq.
  all: cbv zeta; cbn [trace heap].
  all: rewrite ?drop_own, ?drop_1, ?drop_2, ?drop_3, ?drop_4.
  all: repeat match goal with H : py_truthy _ = _ |- _ => rewrite H end.
  all: split; [reflexivity|]; split; [cbn; auto|].
  all: split; [rewrite <- ?app_assoc; reflexivity|].
  all: eexists _, _; split; [reflexivity|]; split;
    [unfold hailcontext_at; cbn [heap];
     repeat match goal with H : hc _ = _ |- _ => rewrite H end; use_lookups; reflexivity|].
  all: split; [reflexivity|]; repeat f_equal; congruence.
Qed.

(** Property X17.  [to_dataframe] that returns has invoked [expandTypes] when
    [expand] is true, then [flatten] when [flatten] is true, then [toDF], the
    first on the handle of the table and each next one on what the one
    before returned, and it returns a data frame around what [toDF]
    returned. *)
Theorem to_dataframe_expands_then_flattens self expand flatten w k df w' :
  keytable_at w self = Some k ->
  KeyTable.to_dataframe self expand flatten w = (Ok df, w') ->
  map (fun cr => call_name (fst cr)) (calls_of (KeyTable.to_dataframe self expand flatten) w) =
    (if py_truthy expand then ["expandTypes"] else []) ++
    (if py_truthy flatten then ["flatten"] else []) ++ ["toDF"] /\
  chained (_jkt k) (calls_of (KeyTable.to_dataframe self expand flatten) w) /\
  exists jdf,
    last_reply (calls_of (KeyTable.to_dataframe self expand flatten) w) =
      Some (Returned jdf) /\
    wraps w' df jdf.
Proof.
  intros Hk E. pose proof (to_dataframe_run self expand flatten w) as H.
  unfold wp in H. unfold calls_of. rewrite E in *. cbn [fst snd] in *.
  destruct (H df eq_refl k Hk) as (Hn & Hc & _ & jdf & h & Hl & _ & -> & Hh).
  split; [exact Hn|]. split; [exact Hc|]. exists jdf. split; [exact Hl|].
  exists (length (heap w)), (ODataFrame jdf (_sql_context h)).
  split; [reflexivity|]. split; [|reflexivity].
  rewrite Hh. apply lookup_new. reflexivity.
Qed.

(** Property X18.  When [to_dataframe] returns [df], [to_pandas] makes the
    same remote invocations and then one [toPandas] on [df]. *)
Theorem to_pandas_is_to_dataframe_then_toPandas self expand flatten w df w1 :
  KeyTable.to_dataframe self expand flatten w = (Ok df, w1) ->
  map fst (calls_of (KeyTable.to_pandas self expand flatten) w) =
  map fst (calls_of (KeyTable.to_dataframe self expand flatten) w) ++
  [RCall df "toPandas" []].
Proof.
  intros E. pose proof (to_dataframe_run self expand flatten w) as H.
  unfold wp in H. rewrite E in H. cbn [fst snd] in H.
  assert (exists l, df = PRef l /\
          trace w1 = trace w ++ drop (length (trace w)) (trace w1)) as (l & -> & Ht).
  { destruct (keytable_at w self) as [k|] eqn:Hk.
    - destruct (H df eq_refl k eq_refl) as (_ & _ & Ht & jdf & h & _ & _ & -> & _).
      eauto.
    - exfalso. revert E. unfold keytable_at in Hk.
      unfold KeyTable.to_dataframe, handle_py4j, KeyTable.get, bind, load, ret, raise.
      destruct self; cbn; try discriminate.
      destruct (heap w !! l) as [[]|]; cbn; try discriminate. }
  unfold calls_of at 1. unfold KeyTable.to_pandas, handle_py4j.
  rewrite (bind_run _ _ _ _ _ E). cbv [jcall callable].
  unfold calls_of. rewrite E. cbn [snd].
  destruct (remote _ _) as [[v|x] e']; cbn [trace snd].
  all: rewrite Ht at 1; rewrite <- app_assoc, drop_app_length, map_app; reflexivity.
Qed.

(** Property X19.  The data frame that [to_dataframe] returns can be given
    to [dataframe_to_keytable]: the remote [fromDF] of the class
    [keytable.KeyTable] receives the session, the very handle that [toDF]
    returned, and the keys as an array of [java.lang.String]. *)
Theorem a_dataframe_goes_back_to_a_keytable
    self expand flatten w k df w1 ctx h keys jvmn hailn :
  keytable_at w self = Some k ->
  hailcontext_at w ctx = Some h ->
  _jvm h = PJava jvmn ->
  _hail h = PJava hailn ->
  KeyTable.to_dataframe self expand flatten w = (Ok df, w1) ->
  exists jdf,
    last_reply (calls_of (KeyTable.to_dataframe self expand flatten) w) =
      Some (Returned jdf) /\
    map fst (calls_of (HailContext.dataframe_to_keytable ctx df keys) w1) =
    [RCall (PJava (String.append (String.append hailn ".keytable") ".KeyTable")) "fromDF"
       [_jhc h; jdf;
        jarray (PJava (String.append
                         (String.append (String.append jvmn ".java") ".lang") ".String"))
          keys]].
Proof.
  intros Hk Hh Hjvm Hhail E. pose proof (to_dataframe_run self expand flatten w) as H.
  unfold wp in H. unfold calls_of at 1. rewrite E in *. cbn [fst snd] in *.
  destruct (H df eq_refl k Hk) as (_ & _ & _ & jdf & h' & Hl & _ & -> & Hheap).
  exists jdf. split; [exact Hl|].
  unfold hailcontext_at in Hh. destruct ctx; try discriminate Hh.
  destruct (heap w !! l) as [[]|] eqn:Hctx; try discriminate Hh. injection Hh as ->.
  assert (heap w1 !! l = Some (OHailContext h)) as Hctx1.
  { rewrite Hheap. rewrite lookup_app_l by (eapply lookup_lt_Some; exact Hctx). exact Hctx. }
  assert (heap w1 !! length (heap w) = Some (ODataFrame jdf (_sql_context h'))) as Hdf.
  { rewrite Hheap. apply lookup_new. reflexivity. }
  unfold calls_of, HailContext.dataframe_to_keytable, handle_py4j, HailContext.get,
    HailContextFields.get, DataFrame_jdf, KeyTable.__init__.
  cbv [bind load jattr jcall alloc ret raise].
  repeat (first [rewrite Hctx1 | rewrite Hjvm | rewrite Hhail | rewrite Hdf];
          cbn [heap trace engine]).
  cbn [callable].
  destruct (remote _ _) as [[v|x] e']; cbn [trace snd]; rewrite drop_1; reflexivity.
Qed.

End Further.

(** ** The further properties on the two demo sessions *)

Section FurtherOnDemo.
Import Demo.

Lemma a_throw_ends_the_invocation_witness :
  last (calls_of (invoke (KT_join (PRef 1) (PRef 2) (PStr "sideways"))) w0) =
    Some (RCall (PJava "kt1") "join" [PJava "kt2"; PStr "sideways"],
          Thrown (PStr "unknown join type")) /\
  fst (invoke (KT_join (PRef 1) (PRef 2) (PStr "sideways")) w0) =
    Raise (failure_of (KT_join (PRef 1) (PRef 2) (PStr "sideways"))
             (PStr "unknown join type")).
Proof.
  apply (a_throw_ends_the_invocation (G := demo)
           (KT_join (PRef 1) (PRef 2) (PStr "sideways")) w0).
  left. reflexivity.
Defined.

Lemma FatalError_carries_the_remote_error_witness :
  decorated (KT_filter (PRef 1) (PStr "C1 == 5") (PBool true)) = true /\
  last_reply (calls_of (invoke (KT_filter (PRef 1) (PStr "C1 == 5") (PBool true)))
                Outage.w0) =
    Some (Thrown (PStr "connection lost")).
Proof.
  apply (FatalError_carries_the_remote_error (G := Outage.gateway)
           (KT_filter (PRef 1) (PStr "C1 == 5") (PBool true)) Outage.w0).
  reflexivity.
Defined.

Lemma store_grows_by_the_returned_object_witness :
  (is_Ok (fst (invoke (KT_filter (PRef 1) (PStr "C1 == 5") (PBool true)) w0)) = true ->
   length (heap (snd (invoke (KT_filter (PRef 1) (PStr "C1 == 5") (PBool true)) w0))) =
   length (heap w0) +
   (if allocates (KT_filter (PRef 1) (PStr "C1 == 5") (PBool true)) then 1 else 0)) /\
  (is_Ok (fst (invoke (KT_filter (PRef 1) (PStr "C1 == 5") (PBool true)) w0)) = false ->
   (forall self expand flatten,
      KT_filter (PRef 1) (PStr "C1 == 5") (PBool true) <>
      KT_to_pandas self expand flatten) ->
   length (heap (snd (invoke (KT_filter (PRef 1) (PStr "C1 == 5") (PBool true)) w0))) =
   length (heap w0)).
Proof.
  apply (store_grows_by_the_returned_object (G := demo)
           (KT_filter (PRef 1) (PStr "C1 == 5") (PBool true)) w0).
  reflexivity.
Defined.

Lemma contexts_change_only_by_stop_witness :
  heap (snd (invoke (HC_stop (PRef 0)) w0)) !! 0 = Some (OHailContext hc0) \/
  (HC_stop (PRef 0) = HC_stop (PRef 0) /\
   fst (invoke (HC_stop (PRef 0)) w0) = Ok PNone /\
   heap (snd (invoke (HC_stop (PRef 0)) w0)) !! 0 =
     Some (OHailContext (HailContextFields.set_sc PNone hc0))).
Proof.
  apply (contexts_change_only_by_stop (G := demo) (HC_stop (PRef 0)) w0 0 hc0).
  reflexivity.
Defined.

Lemma stop_cannot_be_repeated_witness :
  hailcontext_at (snd (HailContext.stop (PRef 0) w0)) (PRef 0) =
    Some (HailContextFields.set_sc PNone hc0) /\
  forall w2, rtc step (snd (HailContext.stop (PRef 0) w0)) w2 ->
    HailContext.stop (PRef 0) w2 = (Raise (AttributeError "stop"), w2).
Proof.
  apply (stop_cannot_be_repeated (G := demo) (PRef 0) w0 hc0 PNone); reflexivity.
Defined.

Lemma failed_read_caches_nothing_witness :
  heap (snd (read_property NumColumns (PRef 1) w0)) = heap w0.
Proof.
  apply (failed_read_caches_nothing (G := demo) NumColumns (PRef 1) w0
           (Py4JJavaError (PStr "warming up"))).
  - reflexivity.
  - discriminate.
Defined.

Lemma schema_assertion_guards_only_the_first_read_witness :
  fst (KeyTable.schema (PRef 1) Outage.w0) = Raise AssertionError /\
  forall w2, rtc step (snd (KeyTable.schema (PRef 1) Outage.w0)) w2 ->
             KeyTable.schema (PRef 1) w2 = (Ok (PInstance "TInt" []), w2).
Proof.
  apply (schema_assertion_guards_only_the_first_read (G := Outage.gateway)
           (PRef 1) Outage.w0 (fresh_kt "kt1") (PJava "sig") 1);
    (reflexivity || discriminate).
Defined.

Lemma annotate_rejects_a_list_with_a_non_string_witness :
  KeyTable.annotate (PRef 1) (PList [PStr "Y = 5 * X"; PInt 3]) w0 = (Raise TypeError, w0).
Proof.
  apply (annotate_rejects_a_list_with_a_non_string (G := demo) (PRef 1)
           [PStr "Y = 5 * X"; PInt 3] (PInt 3) w0).
  - right. left. reflexivity.
  - reflexivity.
  - left. repeat constructor.
Defined.

Lemma import_keytable_defaults_a_false_config_witness :
  HailContext.import_keytable (PRef 0) (PStr "data/kt_example1.tsv") (PList [PStr "ID"])
    PNone PNone w0 =
  HailContext.import_keytable (PRef 0) (PStr "data/kt_example1.tsv") (PList [PStr "ID"])
    PNone HailContext.TextTableConfig w0.
Proof.
  apply (import_keytable_defaults_a_false_config (G := demo)). reflexivity.
Defined.

Lemma import_annotations_table_needs_a_config_witness :
  HailContext.import_annotations_table (PRef 0) (PStr "data/variants.tsv")
    (PStr "Variant(Chr, Pos, Ref, Alt)") PNone PNone PNone w0 =
  (Raise (AttributeError "_to_java"), w0).
Proof.
  apply (import_annotations_table_needs_a_config (G := demo) (PRef 0)
           (PStr "data/variants.tsv") (PStr "Variant(Chr, Pos, Ref, Alt)")
           PNone PNone PNone w0 hc0); reflexivity.
Defined.

Lemma key_by_selects_all_columns_witness :
  map fst (calls_of (KeyTable.key_by (PRef 1) (PList [PStr "SEX"; PStr "X"])) w0) =
  map fst (calls_of (KeyTable.column_names (PRef 1)) w0) ++
  [RCall (PJava "kt1") "select"
     [PList [PStr "ID"; PStr "HT"; PStr "SEX"; PStr "X"];
      PList [PStr "SEX"; PStr "X"]]].
Proof.
  apply (key_by_selects_all_columns (G := demo) (PRef 1) (PList [PStr "SEX"; PStr "X"]) w0
           (fresh_kt "kt1") (PList [PStr "ID"; PStr "HT"; PStr "SEX"; PStr "X"])
           (snd (KeyTable.column_names (PRef 1) w0)));
    reflexivity.
Defined.


Lemma select_matches_unicode_keys_with_str_columns_witness :
  map fst (calls_of (KeyTable.select (PRef 1) (PList (PStr <$> ["SEX"; "HT"]))) w2) =
  map fst (calls_of (KeyTable.key_names (PRef 1)) w2) ++
  [RCall (PJava "kt1") "select"
     [PList (PStr <$> ["SEX"; "HT"]);
      PList ((fun n => PUnicode (units_of n)) <$>
             filter (fun n => n ∈ ["SEX"; "HT"]) ["ID"; "SEX"])]].
Proof.
  apply (select_matches_unicode_keys_with_str_columns (G := demo) (PRef 1) ["SEX"; "HT"] w2
           {| hc := PRef 0; _jkt := PJava "kt1"; _schema := PNone;
              _num_columns := PNone;
              _key_names := PList [PUnicode (units_of "ID"); PUnicode (units_of "SEX")];
              _column_names := PNone |}
           ["ID"; "SEX"] w2).
  - reflexivity.
  - reflexivity.
  - repeat constructor.
  - reflexivity.
Defined.

Lemma to_dataframe_expands_then_flattens_witness :
  map (fun cr => call_name (fst cr))
    (calls_of (KeyTable.to_dataframe (PRef 1) (PBool true) (PBool true)) w0) =
    ["expandTypes"; "flatten"; "toDF"] /\
  chained (PJava "kt1")
    (calls_of (KeyTable.to_dataframe (PRef 1) (PBool true) (PBool true)) w0) /\
  exists jdf,
    last_reply (calls_of (KeyTable.to_dataframe (PRef 1) (PBool true) (PBool true)) w0) =
      Some (Returned jdf) /\
    wraps (snd (KeyTable.to_dataframe (PRef 1) (PBool true) (PBool true) w0)) (PRef 3) jdf.
Proof.
  apply (to_dataframe_expands_then_flattens (G := demo) (PRef 1) (PBool true) (PBool true)
           w0 (fresh_kt "kt1") (PRef 3)); reflexivity.
Defined.

Lemma to_pandas_is_to_dataframe_then_toPandas_witness :
  map fst (calls_of (KeyTable.to_pandas (PRef 1) (PBool false) (PBool true)) w0) =
  map fst (calls_of (KeyTable.to_dataframe (PRef 1) (PBool false) (PBool true)) w0) ++
  [RCall (PRef 3) "toPandas" []].
Proof.
  apply (to_pandas_is_to_dataframe_then_toPandas (G := demo) (PRef 1) (PBool false)
           (PBool true) w0 (PRef 3)
           (snd (KeyTable.to_dataframe (PRef 1) (PBool false) (PBool true) w0))).
  reflexivity.
Defined.

Lemma a_dataframe_goes_back_to_a_keytable_witness :
  exists jdf,
    last_reply (calls_of (KeyTable.to_dataframe (PRef 1) (PBool false) (PBool false)) w0) =
      Some (Returned jdf) /\
    map fst (calls_of (HailContext.dataframe_to_keytable (PRef 0) (PRef 3)
                         (PList [PStr "ID"]))
               (snd (KeyTable.to_dataframe (PRef 1) (PBool false) (PBool false) w0))) =
    [RCall (PJava "is.hail.keytable.KeyTable") "fromDF"
       [PJava "jhc"; jdf;
        PInstance "Array" [PJava "jvm.java.lang.String"; PList [PStr "ID"]]]].
Proof.
  apply (a_dataframe_goes_back_to_a_keytable (G := demo) (PRef 1) (PBool false)
           (PBool false) w0 (fresh_kt "kt1") (PRef 3)
           (snd (KeyTable.to_dataframe (PRef 1) (PBool false) (PBool false) w0))
           (PRef 0) hc0 (PList [PStr "ID"]) "jvm" "is.hail"); reflexivity.
Defined.

End FurtherOnDemo.
